(** * express-sequelize-api: the authentication and session core

    A shallow embedding of the Express handlers of the repository
    (controllers/auth.controller.js, controllers/user.controller.js,
    controllers/role.controller.js, middlewares/verifyToken.js,
    middlewares/roleAuthorization.js, middlewares/validators.js and the
    routes that chain them) over an explicit model of the Sequelize tables,
    followed by the properties of the specification that were checked
    against it.

    Handlers are written in a state-and-exception monad over the database:
    an [await]ed query is a monadic step, a rejected promise is an
    exception, and [try { ... } catch (error) { ... }] is [try_catch].
    The libraries the handlers call ([jsonwebtoken], [bcrypt], Sequelize)
    are modelled symbolically in modules that carry the library's name, so
    that [jwt.verify], [bcrypt.compare] or [db.user.findOne] read here as
    they do in the source. *)

From stdpp Require Import base option list strings gmap countable pretty.

Set Default Proof Using "Type*".
Open Scope N_scope.

(** ** JavaScript values *)

(** [!v] for a value that is a string or [undefined]: the empty string and
    [undefined] are falsy. *)
Definition truthy_string (v : option string) : bool :=
  match v with
  | Some s => bool_decide (s ≠ "")
  | None => false
  end.

(** [!v] for a value that is a number or [undefined]: [0] and [undefined]
    are falsy. *)
Definition truthy_number (v : option N) : bool :=
  match v with
  | Some n => bool_decide (n ≠ 0)
  | None => false
  end.

(** [a || b] on strings that may be [undefined]. *)
Definition or_else (a : option string) (b : option string) : option string :=
  if truthy_string a then a else b.

(** [String.prototype.split(sep)] for a one-character separator. *)
Fixpoint split (sep : Ascii.ascii) (s : string) : list string :=
  match s with
  | EmptyString => [EmptyString]
  | String c s' =>
      if decide (c = sep) then EmptyString :: split sep s'
      else match split sep s' with
           | [] => [String c EmptyString]
           | w :: ws => String c w :: ws
           end
  end.

(** The separator of [split(' ')]. *)
Definition space : Ascii.ascii := Ascii.ascii_of_N 32.

(** The JSON values the handlers send with [res.json]. *)
#[warnings="-register-all"]
Inductive json :=
| JNull
| JBool (b : bool)
| JNum (n : N)
| JStr (s : string)
| JArr (l : list json)
| JObj (fields : list (string * json)).

Definition JOpt {A} (f : A → json) (v : option A) : json :=
  match v with
  | Some a => f a
  | None => JNull
  end.

(** [const { k, ...rest } = o]: the object without its own property [k]. *)
Definition omit (k : string) (o : list (string * json)) : list (string * json) :=
  filter (λ kv, kv.1 ≠ k) o.

Definition has_key (k : string) (o : list (string * json)) : Prop :=
  k ∈ o.*1.

(** ** jsonwebtoken

    A symbolic model of the [jsonwebtoken] package: a token is its header
    algorithm, its payload and the key that produced its signature, and a
    signature verifies exactly when the verifying key corresponds to the
    signing key under the header algorithm.  The compact serialisation
    (base64url segments joined by dots) is the [Wire] interface. *)
Module jwt.

Inductive algorithm :=
| HS256 | HS384 | HS512
| RS256 | RS384 | RS512
| PS256 | PS384 | PS512
| ES256 | ES384 | ES512
| none.

#[global] Instance algorithm_eq_dec : EqDecision algorithm.
Proof. solve_decision. Defined.

(** Key material: a shared secret, or one half of an RSA key pair named
    by its key id. *)
Inductive key :=
| Secret (s : string)
| PrivateKey (kid : string)
| PublicKey (kid : string).

#[global] Instance key_eq_dec : EqDecision key.
Proof. solve_decision. Defined.

(** The claims the handlers sign and read, with the registered claims
    [iat] and [exp] that [sign] adds. *)
Record Payload := {
  id : option N;
  username : option string;
  email : option string;
  verified : option bool;
  iat : option N;
  exp : option N
}.

#[global] Instance Payload_eq_dec : EqDecision Payload.
Proof. solve_decision. Defined.

Record Token := {
  alg : algorithm;
  payload : Payload;
  (** the key whose signature over header and payload the token
      carries; [None] when the third segment is no valid signature *)
  signed_by : option key
}.

#[global] Instance Token_eq_dec : EqDecision Token.
Proof. solve_decision. Defined.

(** The compact serialisation of tokens. *)
Class Wire := {
  serialize : Token → string;
  parse : string → option Token;
  parse_serialize : ∀ t, parse (serialize t) = Some t;
  serialize_nonempty : ∀ t, serialize t ≠ ""
}.

Definition HS_ALGS := [HS256; HS384; HS512].
Definition RSA_KEY_ALGS := [RS256; RS384; RS512; PS256; PS384; PS512].
Definition PUB_KEY_ALGS := [RS256; RS384; RS512; PS256; PS384; PS512; ES256; ES384; ES512].

Definition is_HS (a : algorithm) : bool := bool_decide (a ∈ HS_ALGS).
Definition is_RSA (a : algorithm) : bool := bool_decide (a ∈ RSA_KEY_ALGS).

(** A key that is [undefined] or the empty string. *)
Definition falsy_key (k : key) : bool :=
  match k with
  | Secret s => bool_decide (s = "")
  | _ => false
  end.

(** Does a signature made with [sk] under [a] verify against [vk]? *)
Definition signature_ok (a : algorithm) (sk vk : key) : bool :=
  match sk, vk with
  | Secret s, Secret s' => is_HS a && bool_decide (s = s')
  | PrivateKey k, PublicKey k' => is_RSA a && bool_decide (k = k')
  | _, _ => false
  end.

(** [jwt.sign(payload, secretOrPrivateKey, { algorithm, expiresIn })] at
    clock time [now] (seconds); [algorithm] defaults to HS256. *)
Definition sign `{Wire} (p : Payload) (k : key) (algorithm : option algorithm)
    (expiresIn : N) (now : N) : string + string :=
  let a := default HS256 algorithm in
  if falsy_key k then inl "secretOrPrivateKey must have a value"
  else match k with
       | Secret _ =>
           if is_HS a then
             inr (serialize {| alg := a;
                               payload := {| id := id p; username := username p;
                                             email := email p; verified := verified p;
                                             iat := Some now; exp := Some (now + expiresIn) |};
                               signed_by := Some k |})
           else inl "secretOrPrivateKey must be an asymmetric key"
       | PrivateKey _ =>
           if is_RSA a then
             inr (serialize {| alg := a;
                               payload := {| id := id p; username := username p;
                                             email := email p; verified := verified p;
                                             iat := Some now; exp := Some (now + expiresIn) |};
                               signed_by := Some k |})
           else inl "secretOrPrivateKey must be a symmetric key"
       | PublicKey _ => inl "secretOrPrivateKey must be a private key"
       end.

(** The algorithms [verify] accepts when the caller names none: by the
    kind of key it is given. *)
Definition default_algorithms (k : key) : list algorithm :=
  match k with
  | Secret _ => HS_ALGS
  | _ => PUB_KEY_ALGS
  end.

(** [jwt.verify(token, secretOrPublicKey, { algorithms })] at clock time
    [now]: the decoded payload, or the message of the error thrown. *)
Definition verify `{Wire} (token : option string) (k : key)
    (algorithms : option (list algorithm)) (now : N) : string + Payload :=
  match token with
  | None => inl "jwt must be provided"
  | Some s =>
      if bool_decide (s = "") then inl "jwt must be provided"
      else match parse s with
           | None => inl "jwt malformed"
           | Some t =>
               if falsy_key k then inl "secret or public key must be provided"
               else if negb (bool_decide (alg t ∈ default (default_algorithms k) algorithms))
               then inl "invalid algorithm"
               else match signed_by t with
                    | None => inl "invalid signature"
                    | Some sk =>
                        if negb (signature_ok (alg t) sk k) then inl "invalid signature"
                        else match exp (payload t) with
                             | Some e =>
                                 if bool_decide (e ≤ now) then inl "jwt expired"
                                 else inr (payload t)
                             | None => inr (payload t)
                             end
                    end
           end
  end.

End jwt.

(** ** bcrypt *)
Module bcrypt.

(** [hash data rounds salt] is the digest [bcrypt.hash(data, rounds)]
    computes when it draws [salt]; [compare data digest] is
    [bcrypt.compare]. *)
Class Impl := {
  hash : string → N → N → string;
  compare : string → string → bool;
  compare_hash : ∀ data rounds salt, compare data (hash data rounds salt) = true
}.

End bcrypt.

(** ** The Sequelize models (models/*.model.js) *)

Module User.
(** models/user.model.js, with the [id], [createdAt] and [updatedAt]
    columns Sequelize adds. *)
Record t := {
  id : N;
  name : option string;
  username : string;
  email : string;
  password : string;
  phoneNumber : option string;
  emailVerified : bool;
  acceptedTerms : bool;
  createdAt : N;
  updatedAt : N
}.

#[global] Instance eq_dec : EqDecision t.
Proof. solve_decision. Defined.

(** [user.toJSON()]: the plain object of the row's attributes. *)
Definition toJSON (u : t) : list (string * json) :=
  [ ("id", JNum (id u));
    ("name", JOpt JStr (name u));
    ("username", JStr (username u));
    ("email", JStr (email u));
    ("password", JStr (password u));
    ("phoneNumber", JOpt JStr (phoneNumber u));
    ("emailVerified", JBool (emailVerified u));
    ("acceptedTerms", JBool (acceptedTerms u));
    ("createdAt", JNum (createdAt u));
    ("updatedAt", JNum (updatedAt u)) ].

Definition set_username (v : string) (u : t) : t :=
  {| id := id u; name := name u; username := v; email := email u;
     password := password u; phoneNumber := phoneNumber u;
     emailVerified := emailVerified u; acceptedTerms := acceptedTerms u;
     createdAt := createdAt u; updatedAt := updatedAt u |}.
Definition set_email (v : string) (u : t) : t :=
  {| id := id u; name := name u; username := username u; email := v;
     password := password u; phoneNumber := phoneNumber u;
     emailVerified := emailVerified u; acceptedTerms := acceptedTerms u;
     createdAt := createdAt u; updatedAt := updatedAt u |}.
Definition set_name (v : option string) (u : t) : t :=
  {| id := id u; name := v; username := username u; email := email u;
     password := password u; phoneNumber := phoneNumber u;
     emailVerified := emailVerified u; acceptedTerms := acceptedTerms u;
     createdAt := createdAt u; updatedAt := updatedAt u |}.
Definition set_phoneNumber (v : option string) (u : t) : t :=
  {| id := id u; name := name u; username := username u; email := email u;
     password := password u; phoneNumber := v;
     emailVerified := emailVerified u; acceptedTerms := acceptedTerms u;
     createdAt := createdAt u; updatedAt := updatedAt u |}.
Definition set_password (v : string) (u : t) : t :=
  {| id := id u; name := name u; username := username u; email := email u;
     password := v; phoneNumber := phoneNumber u;
     emailVerified := emailVerified u; acceptedTerms := acceptedTerms u;
     createdAt := createdAt u; updatedAt := updatedAt u |}.
Definition set_emailVerified (v : bool) (u : t) : t :=
  {| id := id u; name := name u; username := username u; email := email u;
     password := password u; phoneNumber := phoneNumber u;
     emailVerified := v; acceptedTerms := acceptedTerms u;
     createdAt := createdAt u; updatedAt := updatedAt u |}.
Definition set_updatedAt (v : N) (u : t) : t :=
  {| id := id u; name := name u; username := username u; email := email u;
     password := password u; phoneNumber := phoneNumber u;
     emailVerified := emailVerified u; acceptedTerms := acceptedTerms u;
     createdAt := createdAt u; updatedAt := v |}.
End User.

Module Session.
(** models/session.model.js: the attributes of a row other than its
    [token], which is unique and keys the table. *)
Record t := {
  flag : bool;
  expiresAt : option N;
  userId : option N
}.

#[global] Instance eq_dec : EqDecision t.
Proof. solve_decision. Defined.

Definition set_flag (v : bool) (s : t) : t :=
  {| flag := v; expiresAt := expiresAt s; userId := userId s |}.
End Session.

Module Role.
(** models/role.model.js *)
Record t := {
  id : N;
  roleName : string;
  description : option string
}.

Definition toJSON (r : t) : list (string * json) :=
  [ ("id", JNum (id r));
    ("roleName", JStr (roleName r));
    ("description", JOpt JStr (description r)) ].
End Role.

Module UserRoles.
(** models/user_roles.model.js: the junction table. *)
Record t := {
  userId : N;
  roleId : N
}.
End UserRoles.

(** A message handed to the SMTP transport. *)
Record Mail := {
  mail_to : string;
  mail_subject : string;
  mail_text : string
}.

Module Segment.
(** A path segment where the route expects a primary key
    ([req.params.userId], a string), as the database reads it. *)
Inductive t :=
| numeral (z : Z)   (** a string that reads as the integer [z] *)
| text (s : string) (** a string that reads as no integer *).
End Segment.

Module Key.
(** What a handler passes to [findByPk]: a number, as [req.user.id] is,
    or a path segment.  The [id] column is a 32-bit INTEGER, and a
    string is cast to it by the database. *)
Inductive t :=
| number (n : N)
| segment (s : Segment.t).

Definition INTEGER_MIN : Z := -2147483648.
Definition INTEGER_MAX : Z := 2147483647.
End Key.

(** One condition of a [where] object on the Users table; the value is
    [None] when the handler passes [undefined]. *)
Inductive Cond :=
| where_id (v : option N)
| where_username (v : option string)
| where_email (v : option string).

(** The queries the handlers issue, as the database sees them. *)
Inductive Query :=
| Q_user_findOne (w : list Cond)
| Q_user_findByPk (id : Key.t)
| Q_user_create (username email : string)
| Q_user_save (id : N)
| Q_session_findOne (token : string)
| Q_session_create (token : string) (userId : N)
| Q_session_update (token : string) (userId : N)
| Q_role_create (roleName : string)
| Q_user_roles_create (userId roleId : N).

(** The state the handlers run against: the tables, the two id sequences,
    what the process reads from its environment (the clock in
    milliseconds, the salt [bcrypt] would draw, whether the SMTP
    transport accepts mail), the mail sent and the queries issued. *)
Record World := {
  users : list User.t;
  sessions : gmap string Session.t;
  roles : list Role.t;
  user_roles : list UserRoles.t;
  user_seq : N;
  role_seq : N;
  clock : N;
  entropy : N;
  smtp_ok : bool;
  outbox : list Mail;
  queries : list Query
}.

Definition set_users (f : list User.t → list User.t) (w : World) : World :=
  {| users := f (users w); sessions := sessions w; roles := roles w;
     user_roles := user_roles w; user_seq := user_seq w; role_seq := role_seq w;
     clock := clock w; entropy := entropy w; smtp_ok := smtp_ok w;
     outbox := outbox w; queries := queries w |}.
Definition set_sessions (f : gmap string Session.t → gmap string Session.t) (w : World) : World :=
  {| users := users w; sessions := f (sessions w); roles := roles w;
     user_roles := user_roles w; user_seq := user_seq w; role_seq := role_seq w;
     clock := clock w; entropy := entropy w; smtp_ok := smtp_ok w;
     outbox := outbox w; queries := queries w |}.
Definition set_roles (f : list Role.t → list Role.t) (w : World) : World :=
  {| users := users w; sessions := sessions w; roles := f (roles w);
     user_roles := user_roles w; user_seq := user_seq w; role_seq := role_seq w;
     clock := clock w; entropy := entropy w; smtp_ok := smtp_ok w;
     outbox := outbox w; queries := queries w |}.
Definition set_user_roles (f : list UserRoles.t → list UserRoles.t) (w : World) : World :=
  {| users := users w; sessions := sessions w; roles := roles w;
     user_roles := f (user_roles w); user_seq := user_seq w; role_seq := role_seq w;
     clock := clock w; entropy := entropy w; smtp_ok := smtp_ok w;
     outbox := outbox w; queries := queries w |}.
Definition set_user_seq (v : N) (w : World) : World :=
  {| users := users w; sessions := sessions w; roles := roles w;
     user_roles := user_roles w; user_seq := v; role_seq := role_seq w;
     clock := clock w; entropy := entropy w; smtp_ok := smtp_ok w;
     outbox := outbox w; queries := queries w |}.
Definition set_role_seq (v : N) (w : World) : World :=
  {| users := users w; sessions := sessions w; roles := roles w;
     user_roles := user_roles w; user_seq := user_seq w; role_seq := v;
     clock := clock w; entropy := entropy w; smtp_ok := smtp_ok w;
     outbox := outbox w; queries := queries w |}.
Definition set_outbox (f : list Mail → list Mail) (w : World) : World :=
  {| users := users w; sessions := sessions w; roles := roles w;
     user_roles := user_roles w; user_seq := user_seq w; role_seq := role_seq w;
     clock := clock w; entropy := entropy w; smtp_ok := smtp_ok w;
     outbox := f (outbox w); queries := queries w |}.
Definition set_queries (f : list Query → list Query) (w : World) : World :=
  {| users := users w; sessions := sessions w; roles := roles w;
     user_roles := user_roles w; user_seq := user_seq w; role_seq := role_seq w;
     clock := clock w; entropy := entropy w; smtp_ok := smtp_ok w;
     outbox := outbox w; queries := f (queries w) |}.

(** ** The handler monad: state over [World], exceptions carrying
    [error.message]. *)
Definition M (A : Type) : Type := World → (string + A) * World.

#[global] Instance M_ret : MRet M := λ A a w, (inr a, w).
#[global] Instance M_bind : MBind M := λ A B f m w,
  match m w with
  | (inl e, w') => (inl e, w')
  | (inr a, w') => f a w'
  end.

Definition throw {A} (e : string) : M A := λ w, (inl e, w).

(** [try { m } catch (error) { h error }] *)
Definition try_catch {A} (m : M A) (h : string → M A) : M A := λ w,
  match m w with
  | (inl e, w') => h e w'
  | (inr a, w') => (inr a, w')
  end.

Definition get : M World := λ w, (inr w, w).
Definition modify (f : World → World) : M unit := λ w, (inr tt, f w).
Definition query (q : Query) : M unit := modify (set_queries (λ qs, qs ++ [q])).

(** A library call that returns or throws. *)
Definition lift {A} (r : string + A) : M A :=
  match r with
  | inl e => throw e
  | inr a => mret a
  end.

(** [Date.now()], and the same clock in the seconds [jsonwebtoken] uses. *)
Definition Date_now : M N := w ← get; mret (clock w).
Definition seconds (ms : N) : N := ms / 1000.

(** ** The queries (Sequelize) *)

(** The double-quote character, for the messages that contain it. *)
Definition dq : string := String (Ascii.ascii_of_N 34) EmptyString.

Definition cond_key (c : Cond) : string :=
  match c with
  | where_id _ => "id"
  | where_username _ => "username"
  | where_email _ => "email"
  end.

Definition cond_undefined (c : Cond) : bool :=
  match c with
  | where_id None | where_username None | where_email None => true
  | _ => false
  end.

Definition cond_holds (u : User.t) (c : Cond) : bool :=
  match c with
  | where_id v => bool_decide (v = Some (User.id u))
  | where_username v => bool_decide (v = Some (User.username u))
  | where_email v => bool_decide (v = Some (User.email u))
  end.

(** Sequelize refuses a [where] object that holds [undefined]. *)
Definition where_error (k : string) : string :=
  "WHERE parameter " +:+ dq +:+ k +:+ dq +:+ " has invalid " +:+ dq +:+ "undefined" +:+ dq +:+ " value".

(** The database refuses a string where it expects an integer. *)
Definition out_of_range (z : Z) : string :=
  "value " +:+ dq +:+ pretty z +:+ dq +:+ " is out of range for type integer".
Definition invalid_integer (s : string) : string :=
  "invalid input syntax for type integer: " +:+ dq +:+ s +:+ dq.

(** The rows of Roles joined to a user through UserRoles
    ([include: [db.role]], read as [user.Roles]). *)
Definition Roles_of (w : World) (u : User.t) : list Role.t :=
  flat_map (λ ur : UserRoles.t,
              if bool_decide (UserRoles.userId ur = User.id u)
              then List.filter (λ r, bool_decide (Role.id r = UserRoles.roleId ur)) (roles w)
              else [])
           (user_roles w).

Module db.

Module user.

Definition select (where_ : list Cond) (w : World) : option User.t :=
  List.find (λ u, forallb (cond_holds u) where_) (users w).

(** [db.user.findOne({ where })] *)
Definition findOne (where_ : list Cond) : M (option User.t) :=
  _ ← query (Q_user_findOne where_);
  match List.find cond_undefined where_ with
  | Some c => throw (where_error (cond_key c))
  | None => w ← get; mret (select where_ w)
  end.

(** [db.user.findOne({ where, include: [db.role] })]: the row with
    its [Roles]. *)
Definition findOne_include (where_ : list Cond) : M (option (User.t * list Role.t)) :=
  found ← findOne where_;
  w ← get;
  mret ((λ u, (u, Roles_of w u)) <$> found).

(** [db.user.findByPk(id)]: a string that is no integer, or an
    integer beyond the range of the column, is refused by the
    database; no row has a negative key. *)
Definition findByPk (id : Key.t) : M (option User.t) :=
  _ ← query (Q_user_findByPk id);
  match id with
  | Key.number n => w ← get; mret (select [where_id (Some n)] w)
  | Key.segment (Segment.numeral z) =>
      if bool_decide (Key.INTEGER_MIN ≤ z ≤ Key.INTEGER_MAX)%Z then
        w ← get;
        mret (if bool_decide (0 ≤ z)%Z then select [where_id (Some (Z.to_N z))] w else None)
      else throw (out_of_range z)
  | Key.segment (Segment.text s) => throw (invalid_integer s)
  end.

(** [db.user.findByPk(id, { include: [db.role] })] *)
Definition findByPk_include (id : Key.t) : M (option (User.t * list Role.t)) :=
  found ← findByPk id;
  w ← get;
  mret ((λ u, (u, Roles_of w u)) <$> found).

(** Does another row already hold this username or this email?  Both
    columns are declared [unique]. *)
Definition unique_violation (u : User.t) (w : World) : bool :=
  existsb (λ v, negb (bool_decide (User.id v = User.id u))
                && (bool_decide (User.username v = User.username u)
                    || bool_decide (User.email v = User.email u)))
          (users w).

(** [db.user.create({ username, email, password, emailVerified,
    acceptedTerms })] *)
Definition create (username email password : string)
    (emailVerified acceptedTerms : bool) : M User.t :=
  _ ← query (Q_user_create username email);
  w ← get;
  let u := {| User.id := user_seq w + 1; User.name := None;
              User.username := username; User.email := email;
              User.password := password; User.phoneNumber := None;
              User.emailVerified := emailVerified;
              User.acceptedTerms := acceptedTerms;
              User.createdAt := clock w; User.updatedAt := clock w |} in
  _ ← modify (set_user_seq (user_seq w + 1));
  if unique_violation u w then throw "Validation error"
  else _ ← modify (set_users (λ us, us ++ [u])); mret u.

Definition replace (u : User.t) (us : list User.t) : list User.t :=
  (λ v, if bool_decide (User.id v = User.id u) then u else v) <$> us.

(** [user.save()] on an instance that was read from the table as
    [read] and whose attributes have since been assigned to give
    [user]: nothing is written when no attribute changed; the result
    is the instance as the call leaves it. *)
Definition save (read user : User.t) : M User.t :=
  if bool_decide (user = read) then mret user
  else
    _ ← query (Q_user_save (User.id user));
    w ← get;
    if unique_violation user w then throw "Validation error"
    else
      let user := User.set_updatedAt (clock w) user in
      _ ← modify (set_users (replace user)); mret user.

End user.

Module session.

(** [db.session.findOne({ where: { token } })] *)
Definition findOne (token : string) : M (option Session.t) :=
  _ ← query (Q_session_findOne token);
  w ← get;
  mret (sessions w !! token).

(** [db.session.create({ token, flag, userId })]; [token] is
    declared [unique]. *)
Definition create (token : string) (flag : bool) (userId : N) : M unit :=
  _ ← query (Q_session_create token userId);
  w ← get;
  match sessions w !! token with
  | Some _ => throw "Validation error"
  | None =>
      modify (set_sessions
                <[token := {| Session.flag := flag; Session.expiresAt := None;
                              Session.userId := Some userId |}]>)
  end.

(** [db.session.update({ flag: true }, { where: { token, userId } })] *)
Definition update_flag (token : string) (userId : N) : M unit :=
  _ ← query (Q_session_update token userId);
  modify (set_sessions (λ m,
    match m !! token with
    | Some s =>
        if bool_decide (Session.userId s = Some userId)
        then <[token := Session.set_flag true s]> m
        else m
    | None => m
    end)).

End session.

Module role.

(** [db.role.create({ roleName, description })]; [roleName] is
    declared [unique]. *)
Definition create (roleName : string) (description : option string) : M Role.t :=
  _ ← query (Q_role_create roleName);
  w ← get;
  let r := {| Role.id := role_seq w + 1; Role.roleName := roleName;
              Role.description := description |} in
  _ ← modify (set_role_seq (role_seq w + 1));
  if existsb (λ r', bool_decide (Role.roleName r' = roleName)) (roles w)
  then throw "Validation error"
  else _ ← modify (set_roles (λ rs, rs ++ [r])); mret r.

End role.

Module user_roles.

(** [db.user_roles.create({ userId, roleId })]; both columns are
    foreign keys. *)
Definition create (userId roleId : N) : M unit :=
  _ ← query (Q_user_roles_create userId roleId);
  w ← get;
  if existsb (λ u, bool_decide (User.id u = userId)) (users w)
     && existsb (λ r, bool_decide (Role.id r = roleId)) (roles w)
  then modify (set_user_roles (λ l, l ++ [{| UserRoles.userId := userId;
                                              UserRoles.roleId := roleId |}]))
  else throw "insert or update on table violates foreign key constraint".

End user_roles.

End db.

(** ** The process environment: config/jwt.config.js, config/config.js and
    the key files the handlers read on every call. *)
Class Env := {
  (** the content of the file at [jwt_config.publicKeyPath] *)
  publicKey : jwt.key;
  (** the content of the file at [jwt_config.privateKeyPath] *)
  privateKey : jwt.key;
  (** [jwt_config.secret] *)
  secret : string;
  (** [config.baseUrl] *)
  baseUrl : string
}.

(** utils/emailService.js: [sendVerificationEmail(email, link)]. *)
Definition sendVerificationEmail (email link : string) : M unit :=
  w ← get;
  if smtp_ok w then
    modify (set_outbox (λ o, o ++ [{| mail_to := email;
                                      mail_subject := "Account Verification";
                                      mail_text := "Click the link to verify your account: " +:+ link |}]))
  else throw "connect ECONNREFUSED".

(** ** Requests and responses (Express) *)

Module ReqUser.
(** [req.user], as [verifyToken] attaches it.  ([login], [signup] and
    [resendVerificationEmail] also assign [req.user = { id }] before they
    answer; only the request logger reads it, and a handler that answers
    passes no request on.) *)
Record t := {
  id : N;
  username : option string;
  verified : option bool;
  role : option (list string)
}.

Definition toJSON (u : t) : json :=
  JObj ([("id", JNum (id u))]
        ++ from_option (λ s, [("username", JStr s)]) [] (username u)
        ++ from_option (λ b, [("verified", JBool b)]) [] (verified u)
        ++ from_option (λ l, [("role", JArr (JStr <$> l))]) [] (role u)).
End ReqUser.

Module Body.
(** The properties of [req.body] the handlers and validators read. *)
Record t := {
  username : option string;
  email : option string;
  password : option string;
  token : option string;
  newPassword : option string;
  currentPassword : option string;
  name : option string;
  phoneNumber : option string;
  roleName : option string;
  description : option string;
  userId : option N;
  roleId : option N
}.

Definition empty : t :=
  {| username := None; email := None; password := None; token := None;
     newPassword := None; currentPassword := None; name := None;
     phoneNumber := None; roleName := None; description := None;
     userId := None; roleId := None |}.
End Body.

Module Params.
(** The route parameters [req.params]. *)
Record t := {
  token : option string;
  userId : option Segment.t
}.

Definition empty : t := {| token := None; userId := None |}.
End Params.

Module Request.
Record t := {
  (** [req.headers['authorization']] *)
  authorization : option string;
  body : Body.t;
  params : Params.t;
  user : option ReqUser.t;
  (** what [validationResult(req)] will report *)
  validationErrors : list string
}.

Definition set_user (u : ReqUser.t) (r : t) : t :=
  {| authorization := authorization r; body := body r; params := params r;
     user := Some u; validationErrors := validationErrors r |}.
Definition add_errors (es : list string) (r : t) : t :=
  {| authorization := authorization r; body := body r; params := params r;
     user := user r; validationErrors := validationErrors r ++ es |}.
End Request.

Module Response.
Record t := {
  status : N;
  body : json
}.
End Response.

(** What a middleware or handler does with a request: it answers, or it
    calls [next()] with the request as it left it. *)
Inductive Outcome :=
| Respond (r : Response.t)
| Next (req : Request.t).

Definition Handler := Request.t → M Outcome.

(** [res.status(code).json(body)] *)
Definition res_json (code : N) (body : json) : M Outcome :=
  mret (Respond {| Response.status := code; Response.body := body |}).

(** [{ message }] and [{ message, error }] *)
Definition message (m : string) : json := JObj [("message", JStr m)].
Definition message_error (m e : string) : json :=
  JObj [("message", JStr m); ("error", JStr e)].

(** The middlewares of a route, run in order until one answers. *)
Fixpoint chain (hs : list Handler) (req : Request.t) : M Outcome :=
  match hs with
  | [] => mret (Next req)
  | h :: hs' =>
      o ← h req;
      match o with
      | Respond r => mret (Respond r)
      | Next req' => chain hs' req'
      end
  end.

(** ** middlewares/validators.js (express-validator) *)
Module validator.
(** [validator.isEmail] is taken as given. *)
Class Impl := { isEmail : string → bool }.
End validator.

Section validators.
Context `{validator.Impl}.

(** A validation chain on one field: the message it reports, if any. *)
Definition notEmpty (v : option string) (msg : string) : list string :=
  if truthy_string v then [] else [msg].
Definition notEmpty_number (v : option N) (msg : string) : list string :=
  match v with Some _ => [] | None => [msg] end.
Definition notEmpty_segment (v : option Segment.t) (msg : string) : list string :=
  match v with
  | None | Some (Segment.text "") => [msg]
  | Some _ => []
  end.
Definition isEmail (v : option string) (msg : string) : list string :=
  if validator.isEmail (default "" v) then [] else [msg].
Definition isLength_min (min : nat) (v : option string) (msg : string) : list string :=
  if bool_decide (min ≤ String.length (default "" v))%nat then [] else [msg].
(** [.optional()]: an [undefined] field is not checked. *)
Definition optional (v : option string)
    (check : option string → string → list string) (msg : string) : list string :=
  match v with
  | None => []
  | Some _ => check v msg
  end.
(** [oneOf([...])]: passes when one of the chains does. *)
Definition oneOf (chains : list (list string)) : list string :=
  if existsb (λ es, bool_decide (es = [])) chains then [] else ["Invalid value(s)"].

(** A validator array as a middleware: it records what it found and
    calls [next()]. *)
Definition validate (check : Request.t → list string) : Handler :=
  λ req, mret (Next (Request.add_errors (check req) req)).

Definition validateLogin : Handler := validate (λ req,
  let b := Request.body req in
  oneOf [ notEmpty (Body.username b) "Username is required";
          isEmail (Body.email b) "Valid email is required" ]
  ++ isLength_min 6 (Body.password b) "Password must be at least 6 characters long").

Definition validateSignup : Handler := validate (λ req,
  let b := Request.body req in
  notEmpty (Body.username b) "Username is required"
  ++ isEmail (Body.email b) "Valid email is required"
  ++ isLength_min 6 (Body.password b) "Password must be at least 6 characters long").

Definition validateResendVerification : Handler := validate (λ req,
  isEmail (Body.email (Request.body req)) "Valid email is required").

Definition validateVerificationToken : Handler := validate (λ req,
  notEmpty (Params.token (Request.params req)) "Verification token is required").

Definition validateForgotPassword : Handler := validate (λ req,
  isEmail (Body.email (Request.body req)) "Valid email is required").

Definition validateResetPassword : Handler := validate (λ req,
  notEmpty (Params.token (Request.params req)) "Reset token is required"
  ++ isLength_min 6 (Body.newPassword (Request.body req))
       "Password must be at least 6 characters long").

Definition validateChangePassword : Handler := validate (λ req,
  let b := Request.body req in
  notEmpty (Body.currentPassword b) "Old password is required"
  ++ isLength_min 6 (Body.newPassword b) "New password must be at least 6 characters long").

Definition validateUserUpdate : Handler := validate (λ req,
  let b := Request.body req in
  optional (Body.email b) isEmail "Valid email is required"
  ++ optional (Body.username b) notEmpty "Username is required"
  ++ optional (Body.name b) notEmpty "Name is required"
  ++ optional (Body.phoneNumber b) notEmpty "Phone Number is required").

Definition validateGetUserRoles : Handler := validate (λ req,
  notEmpty_segment (Params.userId (Request.params req)) "User ID is required").

Definition validateAssignRoleToUser : Handler := validate (λ req,
  let b := Request.body req in
  notEmpty_number (Body.userId b) "User ID is required"
  ++ notEmpty_number (Body.roleId b) "Role ID is required").

Definition validateCreateRole : Handler := validate (λ req,
  let b := Request.body req in
  notEmpty (Body.roleName b) "Role Name is required"
  ++ optional (Body.description b) notEmpty "Description is required").

End validators.

(** ** middlewares/validationErrorHandler.js *)
Definition validationErrorHandler : Handler := λ req,
  match Request.validationErrors req with
  | [] => mret (Next req)
  | errors =>
      res_json 400 (JObj [("errors", JArr ((λ m, JObj [("msg", JStr m)]) <$> errors))])
  end.

(** ** middlewares/roleAuthorization.js *)
Definition roleAuthorization (allowedRoles : list string) : Handler := λ req,
  match Request.user req ≫= ReqUser.role with
  | None => res_json 403 (message "Access denied")
  | Some role =>
      let found := existsb (λ r, bool_decide (r ∈ role)) allowedRoles in
      if negb found then res_json 403 (message "Forbidden: Insufficient permissions")
      else mret (Next req)
  end.

(** ** middlewares/verifyToken.js *)
Section verifyToken.
Context `{jwt.Wire, Env}.

(** [req.headers['authorization']?.split(' ')[1]] *)
Definition bearer (req : Request.t) : option string :=
  Request.authorization req ≫= λ h, split space h !! 1%nat.

Definition verifyToken : Handler := λ req,
  let token := bearer req in
  if negb (truthy_string token) then res_json 401 (message "No token provided")
  else
    now ← Date_now;
    match jwt.verify token publicKey (Some [jwt.RS256]) (seconds now) with
    | inl err => res_json 401 (message "Invalid token")
    | inr decoded =>
        if negb (truthy_number (jwt.id decoded)) || negb (truthy_string (jwt.username decoded))
        then res_json 401 (message "Token is missing required user information")
        else
          try_catch
            (blacklistedToken ← db.session.findOne (default "" token);
             match blacklistedToken with
             | None => res_json 401 (message "Token is blacklisted")
             | Some s =>
                 if Session.flag s then res_json 401 (message "Token is blacklisted")
                 else
                   user ← db.user.findOne_include
                            [where_id (jwt.id decoded); where_username (jwt.username decoded)];
                   match user with
                   | None => res_json 401 (message "User not found")
                   | Some (user, Roles) =>
                       let roles := Role.roleName <$> Roles in
                       mret (Next (Request.set_user
                                     {| ReqUser.id := User.id user;
                                        ReqUser.username := Some (User.username user);
                                        ReqUser.verified := Some (User.emailVerified user);
                                        ReqUser.role := Some roles |} req))
                   end
             end)
            (λ error, res_json 401 (message_error "Token verification failed" error))
    end.

End verifyToken.

(** ** controllers/auth.controller.js *)
Section auth_controller.
Context `{jwt.Wire, bcrypt.Impl, Env}.

(** [await bcrypt.hash(data, 10)]: the salt is drawn from the
    environment; [data] must be a string. *)
Definition bcrypt_hash (data : option string) (rounds : N) : M string :=
  match data with
  | None => throw "data and salt arguments required"
  | Some d => w ← get; mret (bcrypt.hash d rounds (entropy w))
  end.

(** [req.user.id], which throws when [req.user] is [undefined]. *)
Definition req_user_id (req : Request.t) : M N :=
  match Request.user req with
  | None => throw "Cannot read properties of undefined (reading 'id')"
  | Some u => mret (ReqUser.id u)
  end.

(** The payloads the controller signs. *)
Definition session_claims (user : User.t) : jwt.Payload :=
  {| jwt.id := Some (User.id user); jwt.username := Some (User.username user);
     jwt.email := None; jwt.verified := Some (User.emailVerified user);
     jwt.iat := None; jwt.exp := None |}.
Definition verification_claims (user : User.t) : jwt.Payload :=
  {| jwt.id := Some (User.id user); jwt.username := None;
     jwt.email := Some (User.email user); jwt.verified := None;
     jwt.iat := None; jwt.exp := None |}.
Definition reset_claims (user : User.t) : jwt.Payload :=
  {| jwt.id := Some (User.id user); jwt.username := Some (User.username user);
     jwt.email := None; jwt.verified := None;
     jwt.iat := None; jwt.exp := None |}.

(** ['1h'] in seconds. *)
Definition one_hour : N := 3600.

Definition login : Handler := λ req,
  let username := Body.username (Request.body req) in
  let password := Body.password (Request.body req) in
  if negb (truthy_string username) || negb (truthy_string password)
  then res_json 400 (message "Username and password are required")
  else
    try_catch
      (user ← db.user.findOne [where_username username];
       match user with
       | None => res_json 401 (message "Invalid username or password")
       | Some user =>
           let isMatch := bcrypt.compare (default "" password) (User.password user) in
           if negb isMatch then res_json 401 (message "Invalid username or password")
           else
             now ← Date_now;
             token ← lift (jwt.sign (session_claims user) privateKey
                             (Some jwt.RS256) one_hour (seconds now));
             _ ← db.session.create token false (User.id user);
             res_json 200 (JObj [("token", JStr token)])
       end)
      (λ error, res_json 500 (message_error "Server error" error)).

Definition signup : Handler := λ req,
  let username := Body.username (Request.body req) in
  let email := Body.email (Request.body req) in
  let password := Body.password (Request.body req) in
  try_catch
    (existingUser ← db.user.findOne [where_email email];
     match existingUser with
     | Some _ => res_json 400 (message "User already registered")
     | None =>
         hashedPassword ← bcrypt_hash password 10;
         newUser ← match username with
                   | None => throw "notNull Violation: Users.username cannot be null"
                   | Some username =>
                       db.user.create username (default "" email) hashedPassword false true
                   end;
         _ ← db.user_roles.create (User.id newUser) 1;
         now ← Date_now;
         verificationToken ← lift (jwt.sign (verification_claims newUser) (jwt.Secret secret)
                                     None one_hour (seconds now));
         let verificationLink := baseUrl +:+ "/verification/" +:+ verificationToken in
         _ ← sendVerificationEmail (default "" email) verificationLink;
         res_json 201 (message "User registered successfully. Please check your email to verify your account.")
     end)
    (λ error, res_json 500 (message_error "Internal server error" error)).

Definition resendVerificationEmail : Handler := λ req,
  let email := Body.email (Request.body req) in
  try_catch
    (user ← db.user.findOne [where_email email];
     match user with
     | None => res_json 404 (message "User not found")
     | Some user =>
         if User.emailVerified user then res_json 400 (message "User is already verified")
         else
           now ← Date_now;
           verificationToken ← lift (jwt.sign (verification_claims user) (jwt.Secret secret)
                                       None one_hour (seconds now));
           let verificationLink := baseUrl +:+ "/verification/" +:+ verificationToken in
           _ ← sendVerificationEmail (default "" email) verificationLink;
           res_json 200 (message "Verification email resent successfully")
     end)
    (λ error, res_json 500 (message_error "Internal server error" error)).

Definition verification : Handler := λ req,
  let token := Params.token (Request.params req) in
  try_catch
    (now ← Date_now;
     decoded ← lift (jwt.verify token (jwt.Secret secret) None (seconds now));
     user ← db.user.findOne [where_id (jwt.id decoded); where_email (jwt.email decoded)];
     match user with
     | None => res_json 400 (message "Invalid verification link")
     | Some user =>
         _ ← db.user.save user (User.set_emailVerified true user);
         res_json 200 (message "User verified successfully")
     end)
    (λ error, res_json 400 (message_error "Invalid or expired verification link" error)).

Definition verifyUser : Handler := λ req,
  res_json 200 (JObj ([("message", JStr "User is authenticated")]
                      ++ from_option (λ u, [("user", ReqUser.toJSON u)]) [] (Request.user req))).

Definition forgotPassword : Handler := λ req,
  let email := Body.email (Request.body req) in
  try_catch
    (user ← db.user.findOne [where_email email];
     match user with
     | None => res_json 404 (message "User not found")
     | Some user =>
         now ← Date_now;
         token ← lift (jwt.sign (reset_claims user) (jwt.Secret secret)
                         None one_hour (seconds now));
         let resetLink := baseUrl +:+ "/reset-password/" +:+ token in
         (* the call passes three arguments to a function of two: the
            second, 'Password Reset', is taken as the link *)
         _ ← sendVerificationEmail (User.email user) "Password Reset";
         res_json 200 (message "Password reset link sent successfully")
     end)
    (λ error, res_json 500 (message_error "Internal server error" error)).

Definition resetPassword : Handler := λ req,
  let token := Body.token (Request.body req) in
  let newPassword := Body.newPassword (Request.body req) in
  try_catch
    (now ← Date_now;
     decoded ← lift (jwt.verify token (jwt.Secret secret) None (seconds now));
     user ← db.user.findOne [where_id (jwt.id decoded); where_username (jwt.username decoded)];
     match user with
     | None => res_json 400 (message "Invalid or expired token")
     | Some user =>
         hashedPassword ← bcrypt_hash newPassword 10;
         _ ← db.user.save user (User.set_password hashedPassword user);
         res_json 200 (message "Password reset successfully")
     end)
    (λ error, res_json 400 (message_error "Invalid or expired token" error)).

Definition logout : Handler := λ req,
  try_catch
    (userId ← req_user_id req;
     token ← match Request.authorization req with
             | None => throw "Cannot read properties of undefined (reading 'split')"
             | Some h => mret (split space h !! 1%nat)
             end;
     _ ← match token with
         | None => _ ← query (Q_session_update "" userId); throw (where_error "token")
         | Some token => db.session.update_flag token userId
         end;
     res_json 200 (message "Logged out successfully"))
    (λ error, res_json 500 (message_error "Server error" error)).

End auth_controller.

(** ** controllers/user.controller.js *)
Section user_controller.
Context `{bcrypt.Impl}.

(** [a || b] where [b] is a string. *)
Definition or_string (a : option string) (b : string) : string :=
  if truthy_string a then default b a else b.

Definition getUser : Handler := λ req,
  try_catch
    (userId ← req_user_id req;
     user ← db.user.findByPk (Key.number userId);
     match user with
     | None => res_json 404 (message "User not found")
     | Some user =>
         let userData := omit "password" (User.toJSON user) in
         res_json 200 (JObj userData)
     end)
    (λ error, res_json 500 (message_error "Internal server error" error)).

Definition updateUser : Handler := λ req,
  try_catch
    (userId ← req_user_id req;
     let username := Body.username (Request.body req) in
     let email := Body.email (Request.body req) in
     let name := Body.name (Request.body req) in
     let phoneNumber := Body.phoneNumber (Request.body req) in
     user ← db.user.findByPk (Key.number userId);
     match user with
     | None => res_json 404 (message "User not found")
     | Some user =>
         let read := user in
         let user := User.set_username (or_string username (User.username user)) user in
         let user := User.set_email (or_string email (User.email user)) user in
         let user := User.set_name (or_else name (User.name user)) user in
         let user := User.set_phoneNumber (or_else phoneNumber (User.phoneNumber user)) user in
         let user := if truthy_string email then User.set_emailVerified false user else user in
         user ← db.user.save read user;
         let userData := omit "password" (User.toJSON user) in
         res_json 200 (JObj userData)
     end)
    (λ error, res_json 500 (message_error "Internal server error" error)).

Definition changePassword : Handler := λ req,
  try_catch
    (userId ← req_user_id req;
     let currentPassword := Body.currentPassword (Request.body req) in
     let newPassword := Body.newPassword (Request.body req) in
     user ← db.user.findByPk (Key.number userId);
     match user with
     | None => res_json 404 (message "User not found")
     | Some user =>
         isMatch ← match currentPassword with
                   | None => throw "data and hash arguments required"
                   | Some p => mret (bcrypt.compare p (User.password user))
                   end;
         if negb isMatch then res_json 400 (message "Current password is incorrect")
         else
           hashedPassword ← bcrypt_hash newPassword 10;
           _ ← db.user.save user (User.set_password hashedPassword user);
           res_json 200 (message "Password changed successfully")
     end)
    (λ error, res_json 500 (message_error "Internal server error" error)).

End user_controller.

(** ** controllers/role.controller.js *)
Definition createRole : Handler := λ req,
  let roleName := Body.roleName (Request.body req) in
  let description := Body.description (Request.body req) in
  try_catch
    (role ← match roleName with
            | None => throw "notNull Violation: Role.roleName cannot be null"
            | Some roleName => db.role.create roleName description
            end;
     res_json 201 (JObj (Role.toJSON role)))
    (λ error, res_json 500 (message_error "Error creating role" error)).

Definition assignRoleToUser : Handler := λ req,
  let userId := Body.userId (Request.body req) in
  let roleId := Body.roleId (Request.body req) in
  try_catch
    (_ ← match userId, roleId with
         | Some userId, Some roleId => db.user_roles.create userId roleId
         | _, _ => throw "notNull Violation: UserRoles.userId cannot be null"
         end;
     res_json 200 (message "Role assigned successfully"))
    (λ error, res_json 500 (message_error "Error assigning role" error)).

Definition getUserRoles : Handler := λ req,
  let userId := Params.userId (Request.params req) in
  try_catch
    (user ← match userId with
            | None => mret None
            | Some userId => db.user.findByPk_include (Key.segment userId)
            end;
     match user with
     | None => res_json 401 (message "User not found")
     | Some (user, Roles) =>
         let userRoles := Role.roleName <$> Roles in
         res_json 200 (JArr (JStr <$> userRoles))
     end)
    (λ error, res_json 500 (message_error "Error fetching user roles" error)).

(** ** routes/auth.route.js, routes/user.route.js, routes/role.route.js *)
Inductive Route :=
| POST_login
| POST_signup
| POST_resend_verification
| GET_verification
| GET_verify
| POST_forgot_password
| POST_reset_password
| GET_logout
| GET_user
| PUT_user
| POST_user_change_password
| POST_roles
| POST_assign_role
| GET_user_roles.

Section routes.
Context `{jwt.Wire, bcrypt.Impl, Env, validator.Impl}.

(** The middleware array and handler each [app.METHOD(path, ...)]
    registers. *)
Definition middlewares (r : Route) : list Handler :=
  match r with
  | POST_login => [validateLogin; validationErrorHandler; login]
  | POST_signup => [validateSignup; validationErrorHandler; signup]
  | POST_resend_verification =>
      [validateResendVerification; validationErrorHandler; resendVerificationEmail]
  | GET_verification => [validateVerificationToken; validationErrorHandler; verification]
  | GET_verify => [verifyToken; verifyUser]
  | POST_forgot_password => [validateForgotPassword; validationErrorHandler; forgotPassword]
  | POST_reset_password => [validateResetPassword; validationErrorHandler; resetPassword]
  | GET_logout => [verifyToken; logout]
  | GET_user => [verifyToken; getUser]
  | PUT_user => [verifyToken; validateUserUpdate; validationErrorHandler; updateUser]
  | POST_user_change_password =>
      [verifyToken; validateChangePassword; validationErrorHandler; changePassword]
  | POST_roles =>
      [validateCreateRole; validationErrorHandler; verifyToken;
       roleAuthorization ["admin"]; createRole]
  | POST_assign_role =>
      [validateAssignRoleToUser; validationErrorHandler; verifyToken;
       roleAuthorization ["admin"]; assignRoleToUser]
  | GET_user_roles =>
      [validateGetUserRoles; validationErrorHandler; verifyToken;
       roleAuthorization ["admin"]; getUserRoles]
  end.

Definition serve (r : Route) (req : Request.t) : M Outcome :=
  chain (middlewares r) req.

(** What happens to the application between two reads of its state: a
    request is served, or the environment moves (time passes, another
    salt is drawn, the SMTP transport goes up or down). *)
Inductive Event :=
| Served (r : Route) (req : Request.t)
| Environment (clock' entropy' : N) (smtp_ok' : bool).

Definition set_environment (clock' entropy' : N) (smtp_ok' : bool) (w : World) : World :=
  {| users := users w; sessions := sessions w; roles := roles w;
     user_roles := user_roles w; user_seq := user_seq w; role_seq := role_seq w;
     clock := clock'; entropy := entropy'; smtp_ok := smtp_ok';
     outbox := outbox w; queries := queries w |}.

Definition step (w : World) (e : Event) : World :=
  match e with
  | Served r req => (serve r req w).2
  | Environment c s m => set_environment c s m w
  end.

Definition run (es : list Event) (w : World) : World := foldl step w es.

End routes.

(** app.js: the tables after [sequelize.sync({ force: true })] and
    [initial()]. *)
Definition initial (clock0 : N) : World :=
  {| users := []; sessions := ∅;
     roles := [ {| Role.id := 1; Role.roleName := "user";
                   Role.description := Some "User Role" |};
                {| Role.id := 2; Role.roleName := "admin";
                   Role.description := Some "Administrator role" |} ];
     user_roles := []; user_seq := 0; role_seq := 2;
     clock := clock0; entropy := 0; smtp_ok := true;
     outbox := []; queries := [] |}.

(** ** Reference implementations of the library interfaces, to run the
    model on concrete requests. *)
Module reference.

Definition algorithm_code (a : jwt.algorithm) : nat :=
  match a with
  | jwt.HS256 => 0 | jwt.HS384 => 1 | jwt.HS512 => 2
  | jwt.RS256 => 3 | jwt.RS384 => 4 | jwt.RS512 => 5
  | jwt.PS256 => 6 | jwt.PS384 => 7 | jwt.PS512 => 8
  | jwt.ES256 => 9 | jwt.ES384 => 10 | jwt.ES512 => 11
  | jwt.none => 12
  end%nat.

Definition algorithm_of_code (n : nat) : jwt.algorithm :=
  match n with
  | 0 => jwt.HS256 | 1 => jwt.HS384 | 2 => jwt.HS512
  | 3 => jwt.RS256 | 4 => jwt.RS384 | 5 => jwt.RS512
  | 6 => jwt.PS256 | 7 => jwt.PS384 | 8 => jwt.PS512
  | 9 => jwt.ES256 | 10 => jwt.ES384 | 11 => jwt.ES512
  | _ => jwt.none
  end%nat.

#[global] Instance algorithm_countable : Countable jwt.algorithm.
Proof.
  refine (inj_countable' algorithm_code algorithm_of_code _).
  intros []; reflexivity.
Defined.

#[global] Instance key_countable : Countable jwt.key.
Proof.
  refine (inj_countable'
            (λ k, match k with
                  | jwt.Secret s => inl s
                  | jwt.PrivateKey k => inr (inl k)
                  | jwt.PublicKey k => inr (inr k)
                  end)
            (λ x : string + (string + string),
               match x with
               | inl s => jwt.Secret s
               | inr (inl k) => jwt.PrivateKey k
               | inr (inr k) => jwt.PublicKey k
               end) _).
  intros []; reflexivity.
Defined.

#[global] Instance Payload_countable : Countable jwt.Payload.
Proof.
  refine (inj_countable'
            (λ p, (jwt.id p, jwt.username p, (jwt.email p, jwt.verified p),
                   (jwt.iat p, jwt.exp p)))
            (λ x, match x with
                  | (i, u, (e, v), (a, b)) =>
                      {| jwt.id := i; jwt.username := u; jwt.email := e;
                         jwt.verified := v; jwt.iat := a; jwt.exp := b |}
                  end) _).
  intros []; reflexivity.
Defined.

#[global] Instance Token_countable : Countable jwt.Token.
Proof.
  refine (inj_countable'
            (λ t, (jwt.alg t, jwt.payload t, jwt.signed_by t))
            (λ x, match x with
                  | (a, p, s) => {| jwt.alg := a; jwt.payload := p; jwt.signed_by := s |}
                  end) _).
  intros []; reflexivity.
Defined.

(** A positive number written in binary digits, least significant
    first, and read back. *)
Fixpoint digits (p : positive) : string :=
  match p with
  | xH => EmptyString
  | xO p' => String (Ascii.ascii_of_N 48) (digits p')
  | xI p' => String (Ascii.ascii_of_N 49) (digits p')
  end.

Fixpoint undigits (s : string) : option positive :=
  match s with
  | EmptyString => Some xH
  | String c s' =>
      if decide (c = Ascii.ascii_of_N 48) then xO <$> undigits s'
      else if decide (c = Ascii.ascii_of_N 49) then xI <$> undigits s'
      else None
  end.

Lemma undigits_digits p : undigits (digits p) = Some p.
Proof. induction p as [p IH|p IH|]; simpl; rewrite ?IH; reflexivity. Qed.

(** A wire format: the letter J, then the binary digits of the
    token's code. *)
Definition serialize (t : jwt.Token) : string :=
  String (Ascii.ascii_of_N 74) (digits (encode t)).

Definition parse (s : string) : option jwt.Token :=
  match s with
  | EmptyString => None
  | String c s' =>
      if decide (c = Ascii.ascii_of_N 74) then undigits s' ≫= decode else None
  end.

Lemma parse_serialize t : parse (serialize t) = Some t.
Proof.
  unfold parse, serialize. rewrite decide_True by reflexivity.
  rewrite undigits_digits. simpl. apply decode_encode.
Qed.

Lemma serialize_nonempty t : serialize t ≠ "".
Proof. discriminate. Qed.

#[export] Instance wire : jwt.Wire :=
  {| jwt.serialize := serialize; jwt.parse := parse;
     jwt.parse_serialize := parse_serialize;
     jwt.serialize_nonempty := serialize_nonempty |}.

(** A hasher that keeps the plaintext: enough to run the handlers. *)
Definition hash (data : string) (rounds salt : N) : string := "$2b$" +:+ data.
Definition compare (data digest : string) : bool := bool_decide (digest = "$2b$" +:+ data).

Lemma compare_hash data rounds salt : compare data (hash data rounds salt) = true.
Proof. unfold compare, hash. apply bool_decide_eq_true. reflexivity. Qed.

#[export] Instance hasher : bcrypt.Impl :=
  {| bcrypt.hash := hash; bcrypt.compare := compare;
     bcrypt.compare_hash := compare_hash |}.

(** An address is taken to be anything that holds an at sign. *)
Fixpoint has_at (s : string) : bool :=
  match s with
  | EmptyString => false
  | String c s' => bool_decide (c = Ascii.ascii_of_N 64) || has_at s'
  end.

#[export] Instance emails : validator.Impl := {| validator.isEmail := has_at |}.

#[export] Instance env : Env :=
  {| publicKey := jwt.PublicKey "key-1"; privateKey := jwt.PrivateKey "key-1";
     secret := "s3cret"; baseUrl := "http://localhost:3000" |}.

End reference.

(** * The vocabulary of the properties *)

Section vocabulary.
Context `{!jwt.Wire, !bcrypt.Impl, !Env, !validator.Impl}.

(** The state after the database has been sent [q]. *)
Definition log (q : Query) : World → World := set_queries (λ qs, qs ++ [q]).

(** The tables and sequences, apart from the clock, the salt source, the
    transport, the mail sent and the queries issued. *)
Definition same_tables (w w' : World) : Prop :=
  users w' = users w ∧ sessions w' = sessions w ∧ roles w' = roles w
  ∧ user_roles w' = user_roles w ∧ user_seq w' = user_seq w ∧ role_seq w' = role_seq w.

(** An identity is stored under [id] when the Users table holds a row
    with that primary key. *)
Definition stored (w : World) (id : N) : Prop := ∃ u, u ∈ users w ∧ User.id u = id.

(** The claims [verifyToken] insists on. *)
Definition complete (decoded : jwt.Payload) : bool :=
  truthy_number (jwt.id decoded) && truthy_string (jwt.username decoded).

(** The request [verifyToken] hands to the next stage. *)
Definition authenticated (req : Request.t) (w : World) (user : User.t) : Request.t :=
  Request.set_user {| ReqUser.id := User.id user;
                      ReqUser.username := Some (User.username user);
                      ReqUser.verified := Some (User.emailVerified user);
                      ReqUser.role := Some (Role.roleName <$> Roles_of w user) |} req.

Definition answer (code : N) (msg : string) : Outcome :=
  Respond {| Response.status := code; Response.body := message msg |}.

(** A token is revoked when the Sessions table holds it with its flag
    raised, and unknown when the table does not hold it. *)
Definition revoked (w : World) (tok : string) : Prop :=
  ∃ s, sessions w !! tok = Some s ∧ Session.flag s = true.

Definition unknown (w : World) (tok : string) : Prop :=
  sessions w !! tok = None.

(** Raised flags stay raised. *)
Definition flags_kept (m m' : gmap string Session.t) : Prop :=
  ∀ tok s, m !! tok = Some s → Session.flag s = true →
           ∃ s', m' !! tok = Some s' ∧ Session.flag s' = true.

(** The row is the one of the identity the token names in its claims. *)
Definition bound_row (tok : string) (s : Session.t) : Prop :=
  ∃ t uid, jwt.parse tok = Some t ∧ jwt.id (jwt.payload t) = Some uid
           ∧ Session.userId s = Some uid.

(** Every row of the Sessions table belongs to the identity its token
    names. *)
Definition bound (m : gmap string Session.t) : Prop :=
  ∀ tok s, m !! tok = Some s → bound_row tok s.

(** Rows stay, and stay with their identity. *)
Definition owners_kept (m m' : gmap string Session.t) : Prop :=
  ∀ tok s, m !! tok = Some s →
           ∃ s', m' !! tok = Some s' ∧ Session.userId s' = Session.userId s.

(** Bound rows stay bound. *)
Definition keeps_bound (m m' : gmap string Session.t) : Prop := bound m → bound m'.

(** The Access Middleware turns the request away itself: it answers
    401 and calls no later stage, it writes to no table, and when the
    token's signature, expiry and claims are in order the answer is
    'Token is blacklisted'. *)
Definition turned_away (tok : string) (req : Request.t) (w : World) : Prop :=
  ∃ r w',
    verifyToken req w = (inr (Respond r), w')
    ∧ (∀ protected, chain (verifyToken :: protected) req w = (inr (Respond r), w'))
    ∧ Response.status r = 401
    ∧ same_tables w w'
    ∧ (∀ decoded,
         jwt.verify (Some tok) publicKey (Some [jwt.RS256]) (seconds (clock w)) = inr decoded →
         complete decoded = true →
         Response.body r = message "Token is blacklisted").

(** The row [login] writes for a token. *)
Definition session_row (user : User.t) : Session.t :=
  {| Session.flag := false; Session.expiresAt := None; Session.userId := Some (User.id user) |}.

(** The payload [sign] serialises: the claims with [iat] and [exp]. *)
Definition stamped (p : jwt.Payload) (now expiresIn : N) : jwt.Payload :=
  {| jwt.id := jwt.id p; jwt.username := jwt.username p; jwt.email := jwt.email p;
     jwt.verified := jwt.verified p; jwt.iat := Some now; jwt.exp := Some (now + expiresIn) |}.

Definition issued (a : jwt.algorithm) (p : jwt.Payload) (k : jwt.key) (now expiresIn : N)
  : jwt.Token :=
  {| jwt.alg := a; jwt.payload := stamped p now expiresIn; jwt.signed_by := Some k |}.

(** The token [login] signs for an identity at [now] seconds. *)
Definition session_token (user : User.t) (now : N) : jwt.Token :=
  issued jwt.RS256 (session_claims user) privateKey now one_hour.

(** What [validateLogin] reports on a request. *)
Definition login_errors (req : Request.t) : list string :=
  oneOf [ notEmpty (Body.username (Request.body req)) "Username is required";
          isEmail (Body.email (Request.body req)) "Valid email is required" ]
  ++ isLength_min 6 (Body.password (Request.body req))
       "Password must be at least 6 characters long".

Definition refuse (code : N) (msg error : string) : Outcome :=
  Respond {| Response.status := code; Response.body := message_error msg error |}.

(** The row without its password hash. *)
Definition erase_password (u : User.t) : User.t := User.set_password "" u.

(** Two states that differ at most in the password hashes they store
    (and in what they have logged and mailed). *)
Definition same_but_passwords (w1 w2 : World) : Prop :=
  erase_password <$> users w1 = erase_password <$> users w2
  ∧ sessions w1 = sessions w2 ∧ roles w1 = roles w2 ∧ user_roles w1 = user_roles w2
  ∧ clock w1 = clock w2.

(** A 200 answer is an object that has no [password] property. *)
Definition hides_password (r : Response.t) : Prop :=
  Response.status r = 200 →
  ∃ o, Response.body r = JObj o ∧ ¬ has_key "password" o.

End vocabulary.

(** * A scenario

    The model run with the reference implementations of the library
    interfaces: a user signs up, logs in, and logs out. *)

Module scenario.
Import reference.

Definition request (authorization : option string) (body : Body.t) (params : Params.t)
  : Request.t :=
  {| Request.authorization := authorization; Request.body := body;
     Request.params := params; Request.user := None; Request.validationErrors := [] |}.

Definition credentials (username email password : option string) : Body.t :=
  {| Body.username := username; Body.email := email; Body.password := password;
     Body.token := None; Body.newPassword := None; Body.currentPassword := None;
     Body.name := None; Body.phoneNumber := None; Body.roleName := None;
     Body.description := None; Body.userId := None; Body.roleId := None |}.

Definition with_token (token : string) (newPassword : option string) : Body.t :=
  {| Body.username := None; Body.email := None; Body.password := None;
     Body.token := Some token; Body.newPassword := newPassword;
     Body.currentPassword := None; Body.name := None; Body.phoneNumber := None;
     Body.roleName := None; Body.description := None; Body.userId := None;
     Body.roleId := None |}.

Definition bearing (token : string) : Request.t :=
  request (Some ("Bearer " +:+ token)) Body.empty Params.empty.

Definition alice_signup : Request.t :=
  request None (credentials (Some "alice") (Some "alice@x.com") (Some "secret1")) Params.empty.
Definition alice_login : Request.t :=
  request None (credentials (Some "alice") None (Some "secret1")) Params.empty.
Definition alice_login_by_email : Request.t :=
  request None (credentials None (Some "alice@x.com") (Some "secret1")) Params.empty.
Definition alice_wrong_password : Request.t :=
  request None (credentials (Some "alice") None (Some "letmein")) Params.empty.
Definition bob_login : Request.t :=
  request None (credentials (Some "bob") None (Some "secret1")) Params.empty.

(** The row signup stores, at 5000 ms on the clock. *)
Definition alice : User.t :=
  {| User.id := 1; User.name := None; User.username := "alice";
     User.email := "alice@x.com"; User.password := "$2b$secret1";
     User.phoneNumber := None; User.emailVerified := false; User.acceptedTerms := true;
     User.createdAt := 5000; User.updatedAt := 5000 |}.

Definition registered : World := run [Served POST_signup alice_signup] (initial 5000).

(** The session token login signs for her in second 5. *)
Definition alice_token : string := jwt.serialize (session_token alice 5).

Definition logged_in : World := run [Served POST_login alice_login] registered.

Definition logged_out : World := run [Served GET_logout (bearing alice_token)] logged_in.

(** The action tokens signup and forgot-password sign for her. *)
Definition alice_verification_token : string :=
  jwt.serialize (issued jwt.HS256 (verification_claims alice) (jwt.Secret secret) 5 one_hour).
Definition alice_reset_token : string :=
  jwt.serialize (issued jwt.HS256 (reset_claims alice) (jwt.Secret secret) 5 one_hour).

(** A token the holder of the private key could sign, without the
    claims the middleware insists on. *)
Definition anonymous_claims : jwt.Payload :=
  {| jwt.id := None; jwt.username := Some "alice"; jwt.email := None;
     jwt.verified := None; jwt.iat := None; jwt.exp := None |}.
Definition anonymous_token : string :=
  jwt.serialize (issued jwt.RS256 anonymous_claims privateKey 5 one_hour).

Definition as_role (role : option (list string)) : Request.t :=
  Request.set_user {| ReqUser.id := 1; ReqUser.username := Some "alice";
                      ReqUser.verified := Some false; ReqUser.role := role |}
                   (request None Body.empty Params.empty).

Definition roles_of (userId : N) : Request.t :=
  request None Body.empty
          {| Params.token := None;
             Params.userId := Some (Segment.numeral (Z.of_N userId)) |}.


(** The scenario before the default role was assigned to Alice. *)
Definition unassigned : World := set_user_roles (λ _, []) registered.

Definition consuming (token : string) : Request.t :=
  request None Body.empty {| Params.token := Some token; Params.userId := None |}.

(** The state after Alice consumed her verification token, a minute
    later on the clock. *)
Definition verified : World :=
  set_environment 65000 0 true (verification (consuming alice_verification_token) registered).2.

(** The scenario with another hash stored for Alice. *)
Definition other_hash : World :=
  set_users (fmap (User.set_password "$2b$hunter2")) logged_in.

End scenario.

(** * Properties *)

(** ** How the monad and the queries run *)

Lemma run_bind {A B} (m : M A) (f : A → M B) w :
  (m ≫= f) w = match m w with
               | (inl e, w') => (inl e, w')
               | (inr a, w') => f a w'
               end.
Proof. reflexivity. Qed.

Lemma run_ret {A} (a : A) w : (mret a : M A) w = (inr a, w).
Proof. reflexivity. Qed.

Lemma run_throw {A} e w : (throw e : M A) w = (inl e, w).
Proof. reflexivity. Qed.

Lemma run_try_catch {A} (m : M A) h w :
  try_catch m h w = match m w with
                    | (inl e, w') => h e w'
                    | (inr a, w') => (inr a, w')
                    end.
Proof. reflexivity. Qed.

Lemma run_get w : get w = (inr w, w).
Proof. reflexivity. Qed.

Lemma run_modify f w : modify f w = (inr tt, f w).
Proof. reflexivity. Qed.

Lemma run_query q w : query q w = (inr tt, log q w).
Proof. reflexivity. Qed.

Lemma run_lift {A} (r : string + A) w :
  lift r w = match r with inl e => (inl e, w) | inr a => (inr a, w) end.
Proof. destruct r; reflexivity. Qed.

Lemma run_Date_now w : Date_now w = (inr (clock w), w).
Proof. reflexivity. Qed.

Lemma run_res_json c b w :
  res_json c b w = (inr (Respond {| Response.status := c; Response.body := b |}), w).
Proof. reflexivity. Qed.

Lemma run_user_findOne wh w :
  db.user.findOne wh w =
  match List.find cond_undefined wh with
  | Some c => (inl (where_error (cond_key c)), log (Q_user_findOne wh) w)
  | None => (inr (db.user.select wh w), log (Q_user_findOne wh) w)
  end.
Proof. unfold db.user.findOne. rewrite run_bind, run_query. destruct (List.find _ _); reflexivity. Qed.

Lemma run_user_findOne_include wh w :
  db.user.findOne_include wh w =
  match List.find cond_undefined wh with
  | Some c => (inl (where_error (cond_key c)), log (Q_user_findOne wh) w)
  | None => (inr ((λ u, (u, Roles_of w u)) <$> db.user.select wh w), log (Q_user_findOne wh) w)
  end.
Proof.
  unfold db.user.findOne_include. rewrite run_bind, run_user_findOne.
  destruct (List.find _ _); reflexivity.
Qed.

Lemma run_user_findByPk id w :
  db.user.findByPk (Key.number id) w =
  (inr (db.user.select [where_id (Some id)] w), log (Q_user_findByPk (Key.number id)) w).
Proof. reflexivity. Qed.

Lemma run_user_findByPk_include z w :
  db.user.findByPk_include (Key.segment (Segment.numeral z)) w =
  if bool_decide (Key.INTEGER_MIN ≤ z ≤ Key.INTEGER_MAX)%Z
  then (inr ((λ u, (u, Roles_of w u))
               <$> (if bool_decide (0 ≤ z)%Z
                    then db.user.select [where_id (Some (Z.to_N z))] w else None)),
        log (Q_user_findByPk (Key.segment (Segment.numeral z))) w)
  else (inl (out_of_range z), log (Q_user_findByPk (Key.segment (Segment.numeral z))) w).
Proof.
  unfold db.user.findByPk_include, db.user.findByPk.
  rewrite !run_bind, run_query. cbn beta iota.
  destruct (bool_decide _); reflexivity.
Qed.

Lemma run_user_findByPk_text s w :
  db.user.findByPk_include (Key.segment (Segment.text s)) w =
  (inl (invalid_integer s), log (Q_user_findByPk (Key.segment (Segment.text s))) w).
Proof. reflexivity. Qed.

Lemma run_user_save read u w :
  db.user.save read u w =
  if bool_decide (u = read) then (inr u, w)
  else if db.user.unique_violation u w then (inl "Validation error", log (Q_user_save (User.id u)) w)
  else (inr (User.set_updatedAt (clock w) u),
        set_users (db.user.replace (User.set_updatedAt (clock w) u))
                  (log (Q_user_save (User.id u)) w)).
Proof.
  unfold db.user.save. destruct (bool_decide _); [reflexivity|].
  rewrite run_bind, run_query. cbn beta iota.
  rewrite run_bind, run_get. cbn beta iota.
  change (db.user.unique_violation u (log ?q w)) with (db.user.unique_violation u w).
  destruct (db.user.unique_violation u w); reflexivity.
Qed.

Lemma run_session_findOne tok w :
  db.session.findOne tok w = (inr (sessions w !! tok), log (Q_session_findOne tok) w).
Proof. reflexivity. Qed.

Lemma run_session_create tok flag uid w :
  db.session.create tok flag uid w =
  match sessions w !! tok with
  | Some _ => (inl "Validation error", log (Q_session_create tok uid) w)
  | None =>
      (inr tt,
       set_sessions <[tok := {| Session.flag := flag; Session.expiresAt := None;
                                Session.userId := Some uid |}]>
                    (log (Q_session_create tok uid) w))
  end.
Proof.
  unfold db.session.create. rewrite run_bind, run_query. cbn beta iota.
  rewrite run_bind, run_get. cbn beta iota.
  change (sessions (log (Q_session_create tok uid) w)) with (sessions w).
  destruct (sessions w !! tok); reflexivity.
Qed.

Lemma run_session_update_flag tok uid w :
  db.session.update_flag tok uid w =
  (inr tt,
   set_sessions (λ m, match m !! tok with
                      | Some s =>
                          if bool_decide (Session.userId s = Some uid)
                          then <[tok := Session.set_flag true s]> m
                          else m
                      | None => m
                      end)
                (log (Q_session_update tok uid) w)).
Proof. reflexivity. Qed.

Create Rewrite HintDb run.
#[global] Hint Rewrite @run_bind @run_ret @run_throw @run_try_catch run_get run_modify
  run_query @run_lift run_Date_now run_res_json run_user_findOne
  run_user_findOne_include run_user_findByPk run_user_findByPk_include
  run_user_findByPk_text run_user_save
  run_session_findOne run_session_create run_session_update_flag : run.

(** Run the monadic steps at the head of the goal. *)
Ltac mrun := repeat (autorewrite with run; cbn beta iota delta [negb orb andb]).

Lemma same_tables_refl w : same_tables w w.
Proof. repeat split. Qed.

Lemma same_tables_log q w : same_tables w (log q w).
Proof. repeat split. Qed.

Arguments jwt.verify : simpl never.
Arguments jwt.sign : simpl never.
Arguments split : simpl never.
Arguments seconds : simpl never.
Arguments db.user.select : simpl never.
Arguments Roles_of : simpl never.
Arguments where_error : simpl never.
Arguments message : simpl never.
Arguments message_error : simpl never.

(** ** middlewares/roleAuthorization.js *)

Lemma found_allowed (allowedRoles role : list string) :
  existsb (λ r, bool_decide (r ∈ role)) allowedRoles = true
  ↔ ∃ r, r ∈ allowedRoles ∧ r ∈ role.
Proof.
  rewrite existsb_exists. split.
  - intros (r & Hin & Hr). exists r. split.
    + apply list_elem_of_In, Hin.
    + apply bool_decide_eq_true in Hr. exact Hr.
  - intros (r & Hin & Hr). exists r. split.
    + apply list_elem_of_In, Hin.
    + apply bool_decide_eq_true. exact Hr.
Qed.

(** C6. [roleAuthorization(allowedRoles)] answers 403 'Access denied' when
    the request carries no user context or the context carries no roles,
    answers 403 'Forbidden: Insufficient permissions' (a different
    message) when no attached role is an allowed one, calls [next()] with
    the request untouched when some attached role is allowed, and never
    answers with a status other than 403: in particular never 401.  It
    never throws and leaves the state as it was. *)
Theorem roleAuthorization_decides (allowedRoles : list string) (req : Request.t) (w : World) :
  ((Request.user req = None
    ∨ ∃ u, Request.user req = Some u ∧ ReqUser.role u = None) →
   roleAuthorization allowedRoles req w
   = (inr (Respond {| Response.status := 403; Response.body := message "Access denied" |}), w))
  ∧ (∀ u role,
       Request.user req = Some u → ReqUser.role u = Some role →
       (∀ r, r ∈ allowedRoles → r ∉ role) →
       roleAuthorization allowedRoles req w
       = (inr (Respond {| Response.status := 403;
                          Response.body := message "Forbidden: Insufficient permissions" |}), w))
  ∧ (∀ u role,
       Request.user req = Some u → ReqUser.role u = Some role →
       (∃ r, r ∈ allowedRoles ∧ r ∈ role) →
       roleAuthorization allowedRoles req w = (inr (Next req), w))
  ∧ (∀ r w', roleAuthorization allowedRoles req w = (inr (Respond r), w') →
             Response.status r = 403 ∧ Response.status r ≠ 401 ∧ w' = w)
  ∧ (∀ e w', roleAuthorization allowedRoles req w ≠ (inl e, w'))
  ∧ message "Access denied" ≠ message "Forbidden: Insufficient permissions".
Proof.
  unfold roleAuthorization. repeat apply conj.
  - intros [Hu | (u & Hu & Hr)]; rewrite Hu; simpl; [|rewrite Hr]; reflexivity.
  - intros u role Hu Hr Hdisj. rewrite Hu. simpl. rewrite Hr.
    destruct (existsb _ allowedRoles) eqn:Hfound; [|reflexivity].
    apply found_allowed in Hfound as (r & Hin & Hin'). destruct (Hdisj r Hin Hin').
  - intros u role Hu Hr Hex. rewrite Hu. simpl. rewrite Hr.
    apply found_allowed in Hex. rewrite Hex. reflexivity.
  - intros r w'.
    destruct (Request.user req ≫= ReqUser.role) as [role|]; mrun;
      [destruct (existsb _ allowedRoles); mrun|]; intros ?; simplify_eq;
      cbn; repeat split; lia.
  - intros e w'.
    destruct (Request.user req ≫= ReqUser.role) as [role|]; mrun;
      [destruct (existsb _ allowedRoles); mrun|]; done.
  - discriminate.
Qed.

(** ** Looking rows up *)

Lemma select_Some wh w u :
  db.user.select wh w = Some u →
  u ∈ users w ∧ ∀ c, c ∈ wh → cond_holds u c = true.
Proof.
  unfold db.user.select. intros Hf. apply find_some in Hf as [Hin Hall].
  split; [apply list_elem_of_In, Hin|].
  intros c Hc. rewrite forallb_forall in Hall. apply Hall, list_elem_of_In, Hc.
Qed.

Lemma select_None wh w :
  db.user.select wh w = None →
  ∀ u, u ∈ users w → ∃ c, c ∈ wh ∧ cond_holds u c = false.
Proof.
  unfold db.user.select. intros Hf u Hin.
  apply list_elem_of_In in Hin. pose proof (find_none _ _ Hf u Hin) as Hno.
  apply not_true_iff_false in Hno. rewrite forallb_forall in Hno.
  destruct (existsb (λ c, negb (cond_holds u c)) wh) eqn:Hex.
  - apply existsb_exists in Hex as (c & Hc & Hn). exists c. split.
    + apply list_elem_of_In, Hc.
    + destruct (cond_holds u c); [discriminate|reflexivity].
  - exfalso. apply Hno. intros c Hc.
    destruct (cond_holds u c) eqn:Hcu; [reflexivity|]. exfalso.
    assert (existsb (λ c, negb (cond_holds u c)) wh = true) as Ht; [|congruence].
    apply existsb_exists. exists c. rewrite Hcu. split; [exact Hc|reflexivity].
Qed.

Lemma select_exists wh w u :
  u ∈ users w → (∀ c, c ∈ wh → cond_holds u c = true) →
  ∃ u', db.user.select wh w = Some u'.
Proof.
  intros Hin Hall. destruct (db.user.select wh w) as [u'|] eqn:Hs; [eauto|].
  destruct (select_None _ _ Hs u Hin) as (c & Hc & Hf). rewrite (Hall c Hc) in Hf. discriminate.
Qed.

Lemma select_pk_Some w id u :
  db.user.select [where_id (Some id)] w = Some u → u ∈ users w ∧ User.id u = id.
Proof.
  intros Hs. apply select_Some in Hs as [Hin Hall]. split; [exact Hin|].
  specialize (Hall (where_id (Some id))). simpl in Hall.
  rewrite bool_decide_eq_true in Hall. symmetry.
  assert (Some id = Some (User.id u)) as [= ->]; [|reflexivity].
  apply Hall. apply list_elem_of_singleton. reflexivity.
Qed.

Lemma select_pk_stored w id :
  stored w id ↔ ∃ u, db.user.select [where_id (Some id)] w = Some u.
Proof.
  split.
  - intros (u & Hin & Hid). apply (select_exists _ _ u Hin).
    intros c ->%list_elem_of_singleton. simpl. apply bool_decide_eq_true. congruence.
  - intros (u & Hs). exists u. apply select_pk_Some, Hs.
Qed.

Lemma select_pk_None w id :
  ¬ stored w id ↔ db.user.select [where_id (Some id)] w = None.
Proof.
  rewrite select_pk_stored. destruct (db.user.select _ w); split; try done.
  - intros Hn. destruct Hn. eauto.
  - intros _ (u & Hu). discriminate.
Qed.

Lemma Roles_of_unassigned w u :
  (∀ ur, ur ∈ user_roles w → UserRoles.userId ur ≠ User.id u) → Roles_of w u = [].
Proof.
  unfold Roles_of. induction (user_roles w) as [|ur l IH]; intros Hall; [reflexivity|].
  simpl. rewrite bool_decide_eq_false_2 by (apply Hall; left).
  simpl. apply IH. intros ur' Hin. apply Hall. right. exact Hin.
Qed.

(** ** controllers/role.controller.js: getUserRoles *)

(** A path segment that names a key the column can hold. *)
Lemma run_getUserRoles (req : Request.t) (w : World) (userId : N) :
  Params.userId (Request.params req) = Some (Segment.numeral (Z.of_N userId)) →
  userId ≤ 2147483647 →
  getUserRoles req w =
  match db.user.select [where_id (Some userId)] w with
  | Some user =>
      (inr (Respond {| Response.status := 200;
                       Response.body := JArr (JStr <$> (Role.roleName <$> Roles_of w user)) |}),
       log (Q_user_findByPk (Key.segment (Segment.numeral (Z.of_N userId)))) w)
  | None =>
      (inr (Respond {| Response.status := 401; Response.body := message "User not found" |}),
       log (Q_user_findByPk (Key.segment (Segment.numeral (Z.of_N userId)))) w)
  end.
Proof.
  intros Hp Hrange. unfold getUserRoles. rewrite Hp. mrun.
  rewrite bool_decide_eq_true_2 by (unfold Key.INTEGER_MIN, Key.INTEGER_MAX; lia).
  rewrite bool_decide_eq_true_2 by lia. rewrite N2Z.id.
  destruct (db.user.select _ w); reflexivity.
Qed.

(** C8, as the code has it.  For every identity id that the id column
    can hold (a 32-bit INTEGER: at most 2147483647), given as the path
    segment of the route: when an identity is stored under it,
    get-user-roles answers 200 with the names of its roles, which is
    the empty array when no role is assigned to it (a success, not an
    error); when no identity is stored under it, the answer is the
    error 401 with the message 'User not found' (the authentication
    status, not 404). *)
Theorem getUserRoles_outcomes (req : Request.t) (w : World) (userId : N) :
  Params.userId (Request.params req) = Some (Segment.numeral (Z.of_N userId)) →
  userId ≤ 2147483647 →
  (stored w userId →
   ∃ user, user ∈ users w ∧ User.id user = userId
     ∧ getUserRoles req w
       = (inr (Respond {| Response.status := 200;
                          Response.body := JArr (JStr <$> (Role.roleName <$> Roles_of w user)) |}),
          log (Q_user_findByPk (Key.segment (Segment.numeral (Z.of_N userId)))) w))
  ∧ (stored w userId →
     (∀ ur, ur ∈ user_roles w → UserRoles.userId ur ≠ userId) →
     getUserRoles req w
     = (inr (Respond {| Response.status := 200; Response.body := JArr [] |}),
        log (Q_user_findByPk (Key.segment (Segment.numeral (Z.of_N userId)))) w))
  ∧ (¬ stored w userId →
     getUserRoles req w
     = (inr (Respond {| Response.status := 401; Response.body := message "User not found" |}),
        log (Q_user_findByPk (Key.segment (Segment.numeral (Z.of_N userId)))) w)).
Proof.
  intros Hp Hrange. rewrite (run_getUserRoles req w userId Hp Hrange). repeat apply conj.
  - intros (u & Hs)%select_pk_stored. exists u.
    destruct (select_pk_Some _ _ _ Hs) as [Hin Hid]. repeat split; [exact Hin|exact Hid|].
    rewrite Hs. reflexivity.
  - intros (u & Hs)%select_pk_stored Hnone.
    destruct (select_pk_Some _ _ _ Hs) as [Hin Hid].
    rewrite Hs. rewrite Roles_of_unassigned; [reflexivity|].
    intros ur Hur. rewrite Hid. apply Hnone, Hur.
  - intros Hs%select_pk_None. rewrite Hs. reflexivity.
Qed.


(** ** middlewares/verifyToken.js *)

Section access_middleware.
Context `{!jwt.Wire, !Env}.

Lemma truthy_some_nonempty tok : tok ≠ "" → truthy_string (Some tok) = true.
Proof. intros Hne. apply bool_decide_eq_true. exact Hne. Qed.

Lemma verify_nonempty tok k algs now decoded :
  jwt.verify (Some tok) k algs now = inr decoded → tok ≠ "".
Proof.
  unfold jwt.verify. destruct (bool_decide (tok = "")) eqn:Hb; [discriminate|].
  intros _. apply bool_decide_eq_false in Hb. exact Hb.
Qed.

Lemma truthy_number_Some v : truthy_number v = true → ∃ n, v = Some n.
Proof. destruct v; [eauto|discriminate]. Qed.

Lemma truthy_string_Some v : truthy_string v = true → ∃ s, v = Some s.
Proof. destruct v; [eauto|discriminate]. Qed.

(** Every path through [verifyToken]. *)
Lemma verifyToken_run (req : Request.t) (w : World) :
  verifyToken req w =
  match bearer req with
  | None => (inr (answer 401 "No token provided"), w)
  | Some tok =>
      if bool_decide (tok = "") then (inr (answer 401 "No token provided"), w)
      else match jwt.verify (Some tok) publicKey (Some [jwt.RS256]) (seconds (clock w)) with
           | inl _ => (inr (answer 401 "Invalid token"), w)
           | inr decoded =>
               if negb (complete decoded)
               then (inr (answer 401 "Token is missing required user information"), w)
               else match sessions w !! tok with
                    | None =>
                        (inr (answer 401 "Token is blacklisted"), log (Q_session_findOne tok) w)
                    | Some s =>
                        if Session.flag s
                        then (inr (answer 401 "Token is blacklisted"),
                              log (Q_session_findOne tok) w)
                        else
                          let wh := [where_id (jwt.id decoded);
                                     where_username (jwt.username decoded)] in
                          match db.user.select wh w with
                          | None =>
                              (inr (answer 401 "User not found"),
                               log (Q_user_findOne wh) (log (Q_session_findOne tok) w))
                          | Some user =>
                              (inr (Next (authenticated req w user)),
                               log (Q_user_findOne wh) (log (Q_session_findOne tok) w))
                          end
                    end
           end
  end.
Proof.
  unfold verifyToken. destruct (bearer req) as [tok|]; [|reflexivity].
  unfold truthy_string at 1. destruct (bool_decide (tok = "")) eqn:Hempty.
  - apply bool_decide_eq_true in Hempty. rewrite bool_decide_eq_false_2 by tauto. reflexivity.
  - apply bool_decide_eq_false in Hempty. rewrite bool_decide_eq_true_2 by exact Hempty.
    mrun. destruct (jwt.verify _ _ _ _) as [err|decoded]; [reflexivity|].
    unfold complete. rewrite negb_andb.
    destruct (negb (truthy_number (jwt.id decoded)) || negb (truthy_string (jwt.username decoded)))
      eqn:Hc; [reflexivity|].
    apply orb_false_elim in Hc as [Hid Hun].
    apply negb_false_iff in Hid, Hun.
    apply truthy_number_Some in Hid as [n Hid]. apply truthy_string_Some in Hun as [s Hun].
    simpl default. mrun.
    destruct (sessions w !! tok) as [sess|]; [|reflexivity].
    destruct (Session.flag sess); [reflexivity|].
    mrun. rewrite Hid, Hun. simpl List.find. cbn beta iota.
    change (db.user.select ?wh (log ?q w)) with (db.user.select wh w).
    change (Roles_of (log ?q w)) with (Roles_of w).
    destruct (db.user.select _ w) as [user|]; reflexivity.
Qed.

End access_middleware.

(** ** controllers/auth.controller.js: login *)

Section login.
Context `{!jwt.Wire, !bcrypt.Impl, !Env, !validator.Impl}.

(** Every path through [login]. *)
Lemma login_run (req : Request.t) (w : World) :
  login req w =
  let username := Body.username (Request.body req) in
  let password := Body.password (Request.body req) in
  let q := Q_user_findOne [where_username username] in
  if negb (truthy_string username) || negb (truthy_string password)
  then (inr (answer 400 "Username and password are required"), w)
  else match db.user.select [where_username username] w with
       | None => (inr (answer 401 "Invalid username or password"), log q w)
       | Some user =>
           if negb (bcrypt.compare (default "" password) (User.password user))
           then (inr (answer 401 "Invalid username or password"), log q w)
           else match jwt.sign (session_claims user) privateKey (Some jwt.RS256) one_hour
                               (seconds (clock w)) with
                | inl e =>
                    (inr (Respond {| Response.status := 500;
                                     Response.body := message_error "Server error" e |}),
                     log q w)
                | inr token =>
                    match sessions w !! token with
                    | Some _ =>
                        (inr (Respond {| Response.status := 500;
                                         Response.body :=
                                           message_error "Server error" "Validation error" |}),
                         log (Q_session_create token (User.id user)) (log q w))
                    | None =>
                        (inr (Respond {| Response.status := 200;
                                         Response.body := JObj [("token", JStr token)] |}),
                         set_sessions <[token := session_row user]>
                                      (log (Q_session_create token (User.id user)) (log q w)))
                    end
                end
       end.
Proof.
  unfold login. cbv zeta.
  destruct (negb (truthy_string (Body.username (Request.body req)))
            || negb (truthy_string (Body.password (Request.body req)))) eqn:Hguard;
    [reflexivity|].
  apply orb_false_elim in Hguard as [Hu _]. apply negb_false_iff in Hu.
  apply truthy_string_Some in Hu as [username Hu]. rewrite Hu.
  mrun. simpl List.find. cbn beta iota.
  change (db.user.select ?wh (log ?q w)) with (db.user.select wh w).
  destruct (db.user.select _ w) as [user|]; [|reflexivity].
  destruct (negb (bcrypt.compare _ _)); [reflexivity|].
  mrun. change (clock (log ?q w)) with (clock w).
  destruct (jwt.sign _ _ _ _ _) as [e|token]; [reflexivity|].
  mrun. change (sessions (log ?q w)) with (sessions w).
  destruct (sessions w !! token); reflexivity.
Qed.

End login.

(** ** jsonwebtoken: what is signed and what verifies *)

Section tokens.
Context `{!jwt.Wire}.

Lemma sign_secret p k expiresIn now token :
  jwt.sign p k None expiresIn now = inr token →
  ∃ s, k = jwt.Secret s ∧ s ≠ ""
       ∧ token = jwt.serialize (issued jwt.HS256 p k now expiresIn).
Proof.
  unfold jwt.sign. simpl default. destruct k as [s|kid|kid]; simpl.
  - destruct (bool_decide (s = "")) eqn:Hs; [discriminate|].
    apply bool_decide_eq_false in Hs. intros [= <-]. exists s. auto.
  - discriminate.
  - discriminate.
Qed.

Lemma sign_RS256 p k expiresIn now token :
  jwt.sign p k (Some jwt.RS256) expiresIn now = inr token →
  ∃ kid, k = jwt.PrivateKey kid
         ∧ token = jwt.serialize (issued jwt.RS256 p k now expiresIn).
Proof.
  unfold jwt.sign. simpl default. destruct k as [s|kid|kid]; simpl.
  - destruct (bool_decide (s = "")); discriminate.
  - intros [= <-]. exists kid. auto.
  - discriminate.
Qed.

Lemma sign_RS256_private p kid expiresIn now :
  jwt.sign p (jwt.PrivateKey kid) (Some jwt.RS256) expiresIn now
  = inr (jwt.serialize (issued jwt.RS256 p (jwt.PrivateKey kid) now expiresIn)).
Proof. reflexivity. Qed.

(** [verify] on a serialised token. *)
Lemma verify_serialized (t : jwt.Token) k algs now :
  jwt.verify (Some (jwt.serialize t)) k algs now =
  if jwt.falsy_key k then inl "secret or public key must be provided"
  else if negb (bool_decide (jwt.alg t ∈ default (jwt.default_algorithms k) algs))
  then inl "invalid algorithm"
  else match jwt.signed_by t with
       | None => inl "invalid signature"
       | Some sk =>
           if negb (jwt.signature_ok (jwt.alg t) sk k) then inl "invalid signature"
           else match jwt.exp (jwt.payload t) with
                | Some e => if bool_decide (e ≤ now) then inl "jwt expired"
                            else inr (jwt.payload t)
                | None => inr (jwt.payload t)
                end
       end.
Proof.
  unfold jwt.verify.
  rewrite bool_decide_eq_false_2 by apply jwt.serialize_nonempty.
  rewrite jwt.parse_serialize. reflexivity.
Qed.

(** A token signed under an HS algorithm never verifies where RS256 is
    pinned. *)
Lemma verify_RS256_rejects_HS256 p k k' now expiresIn t :
  jwt.verify (Some (jwt.serialize (issued jwt.HS256 p k now expiresIn))) k'
             (Some [jwt.RS256]) t
  = inl (if jwt.falsy_key k' then "secret or public key must be provided"
         else "invalid algorithm").
Proof. rewrite verify_serialized. destruct (jwt.falsy_key k'); reflexivity. Qed.

(** A token whose header names RS256 never verifies against a shared
    secret when the caller pins no algorithm. *)
Lemma verify_secret_rejects_RS256 p k s now expiresIn t :
  jwt.verify (Some (jwt.serialize (issued jwt.RS256 p k now expiresIn))) (jwt.Secret s)
             None t
  = inl (if bool_decide (s = "") then "secret or public key must be provided"
         else "invalid algorithm").
Proof. rewrite verify_serialized. simpl. destruct (bool_decide (s = "")); reflexivity. Qed.

(** A token signed with the private key verifies against the public
    key of the pair for as long as it has not expired. *)
Lemma verify_RS256_issued p kid now expiresIn t :
  jwt.verify (Some (jwt.serialize (issued jwt.RS256 p (jwt.PrivateKey kid) now expiresIn)))
             (jwt.PublicKey kid) (Some [jwt.RS256]) t
  = if bool_decide (now + expiresIn ≤ t) then inl "jwt expired"
    else inr (stamped p now expiresIn).
Proof.
  rewrite verify_serialized. simpl.
  rewrite bool_decide_eq_true_2 by reflexivity. reflexivity.
Qed.

(** A token signed with a secret verifies against that secret for as
    long as it has not expired. *)
Lemma verify_HS256_issued p s now expiresIn t :
  s ≠ "" →
  jwt.verify (Some (jwt.serialize (issued jwt.HS256 p (jwt.Secret s) now expiresIn)))
             (jwt.Secret s) None t
  = if bool_decide (now + expiresIn ≤ t) then inl "jwt expired"
    else inr (stamped p now expiresIn).
Proof.
  intros Hs. rewrite verify_serialized. simpl.
  rewrite bool_decide_eq_false_2 by exact Hs.
  rewrite bool_decide_eq_true_2 by reflexivity. reflexivity.
Qed.

(** What [verify] returns does not depend on when it is asked. *)
Lemma verify_payload tok k algs now decoded :
  jwt.verify (Some tok) k algs now = inr decoded →
  ∃ t, jwt.parse tok = Some t ∧ decoded = jwt.payload t.
Proof.
  unfold jwt.verify. destruct (bool_decide (tok = "")); [discriminate|].
  destruct (jwt.parse tok) as [t|]; [|discriminate].
  destruct (jwt.falsy_key k); [discriminate|].
  destruct (negb (bool_decide _)); [discriminate|].
  destruct (jwt.signed_by t) as [sk|]; [|discriminate].
  destruct (negb (jwt.signature_ok _ _ _)); [discriminate|].
  destruct (jwt.exp (jwt.payload t)) as [e|].
  - destruct (bool_decide (e ≤ now)); [discriminate|]. intros [= <-]. eauto.
  - intros [= <-]. eauto.
Qed.

Lemma verify_same_payload tok k algs now now' decoded decoded' :
  jwt.verify (Some tok) k algs now = inr decoded →
  jwt.verify (Some tok) k algs now' = inr decoded' →
  decoded' = decoded.
Proof.
  intros (t & Ht & ->)%verify_payload (t' & Ht' & ->)%verify_payload. congruence.
Qed.

End tokens.

(** ** How the Sessions table evolves

    Whatever request is served, the table changes only by the insertion
    of a token it did not hold or by the raising of a row's flag; the
    environment does not touch it. *)
Section session_table.
Context `{!jwt.Wire, !bcrypt.Impl, !Env, !validator.Impl}.
Variable Rs : relation (gmap string Session.t).
Context `{!PreOrder Rs}.
(** what is known of an inserted row: it is the one login writes for
    the token it signed *)
Variable Ins : string → Session.t → Prop.
Hypothesis Ins_login : ∀ user now token,
  jwt.sign (session_claims user) privateKey (Some jwt.RS256) one_hour now = inr token →
  Ins token (session_row user).
Hypothesis Rs_insert : ∀ m tok s, m !! tok = None → Ins tok s → Rs m (<[tok := s]> m).
Hypothesis Rs_raise : ∀ m tok s, m !! tok = Some s → Rs m (<[tok := Session.set_flag true s]> m).

Definition evolves {A} (m : M A) : Prop := ∀ w, Rs (sessions w) (sessions (m w).2).

Lemma evolves_ret {A} (a : A) : evolves (mret a).
Proof. intros w. reflexivity. Qed.

Lemma evolves_throw {A} e : evolves (throw e : M A).
Proof. intros w. reflexivity. Qed.

Lemma evolves_bind {A B} (m : M A) (f : A → M B) :
  evolves m → (∀ a, evolves (f a)) → evolves (m ≫= f).
Proof.
  intros Hm Hf w. rewrite run_bind. specialize (Hm w).
  destruct (m w) as [[e|a] w1]; [exact Hm|].
  simpl in Hm. etransitivity; [exact Hm|apply Hf].
Qed.

Lemma evolves_try_catch {A} (m : M A) h :
  evolves m → (∀ e, evolves (h e)) → evolves (try_catch m h).
Proof.
  intros Hm Hh w. rewrite run_try_catch. specialize (Hm w).
  destruct (m w) as [[e|a] w1]; [|exact Hm].
  simpl in Hm. etransitivity; [exact Hm|apply Hh].
Qed.

Lemma evolves_get : evolves get.
Proof. intros w. reflexivity. Qed.

Lemma evolves_modify f : (∀ w, sessions (f w) = sessions w) → evolves (modify f).
Proof. intros Hf w. simpl. rewrite Hf. reflexivity. Qed.

Lemma evolves_query q : evolves (query q).
Proof. intros w. reflexivity. Qed.

Lemma evolves_lift {A} (r : string + A) : evolves (lift r).
Proof. intros w. rewrite run_lift. destruct r; reflexivity. Qed.

Lemma evolves_Date_now : evolves Date_now.
Proof. intros w. reflexivity. Qed.

Lemma evolves_res_json c b : evolves (res_json c b).
Proof. intros w. reflexivity. Qed.

Lemma evolves_session_update_flag tok uid : evolves (db.session.update_flag tok uid).
Proof.
  intros w. rewrite run_session_update_flag. simpl.
  destruct (sessions w !! tok) as [s|] eqn:Hl; [|reflexivity].
  destruct (bool_decide _); [|reflexivity]. apply Rs_raise, Hl.
Qed.

Lemma evolves_same {A} (m : M A) :
  (∀ w, sessions (m w).2 = sessions w) → evolves m.
Proof. intros Hm w. rewrite Hm. reflexivity. Qed.

Lemma evolves_user_findOne wh : evolves (db.user.findOne wh).
Proof.
  apply evolves_same. intros w. rewrite run_user_findOne.
  destruct (List.find _ _); reflexivity.
Qed.

Lemma evolves_user_findOne_include wh : evolves (db.user.findOne_include wh).
Proof.
  apply evolves_same. intros w. rewrite run_user_findOne_include.
  destruct (List.find _ _); reflexivity.
Qed.

Lemma evolves_user_findByPk id : evolves (db.user.findByPk id).
Proof.
  apply evolves_same. intros w. unfold db.user.findByPk. rewrite run_bind, run_query.
  destruct id as [n|[z|s]]; cbn beta iota; [reflexivity| |reflexivity].
  destruct (bool_decide _); reflexivity.
Qed.

Lemma evolves_user_findByPk_include id : evolves (db.user.findByPk_include id).
Proof.
  unfold db.user.findByPk_include. apply evolves_bind; [apply evolves_user_findByPk|].
  intros found. apply evolves_bind; [apply evolves_get|]. intros w. apply evolves_ret.
Qed.

Lemma evolves_user_save read u : evolves (db.user.save read u).
Proof.
  apply evolves_same. intros w. rewrite run_user_save.
  destruct (bool_decide _); [reflexivity|].
  destruct (db.user.unique_violation u w); reflexivity.
Qed.

Lemma evolves_user_create un em pw ev at_ : evolves (db.user.create un em pw ev at_).
Proof.
  apply evolves_same. intros w. unfold db.user.create. mrun.
  destruct (db.user.unique_violation _ _); reflexivity.
Qed.

Lemma evolves_role_create n d : evolves (db.role.create n d).
Proof.
  apply evolves_same. intros w. unfold db.role.create. mrun.
  destruct (existsb _ _); reflexivity.
Qed.

Lemma evolves_user_roles_create u r : evolves (db.user_roles.create u r).
Proof.
  apply evolves_same. intros w. unfold db.user_roles.create. mrun.
  destruct (_ && _); reflexivity.
Qed.

Lemma evolves_sendVerificationEmail e l : evolves (sendVerificationEmail e l).
Proof.
  apply evolves_same. intros w. unfold sendVerificationEmail. mrun.
  destruct (smtp_ok w); reflexivity.
Qed.

Lemma evolves_bcrypt_hash d r : evolves (bcrypt_hash d r).
Proof. apply evolves_same. intros w. destruct d; reflexivity. Qed.

Lemma evolves_req_user_id req : evolves (req_user_id req).
Proof. apply evolves_same. intros w. unfold req_user_id. destruct (Request.user req); reflexivity. Qed.

Lemma evolves_validate check req : evolves (validate check req).
Proof. intros w. reflexivity. Qed.

Lemma evolves_validationErrorHandler req : evolves (validationErrorHandler req).
Proof. intros w. unfold validationErrorHandler. destruct (Request.validationErrors req); reflexivity. Qed.

Lemma evolves_roleAuthorization allowed req : evolves (roleAuthorization allowed req).
Proof.
  intros w. unfold roleAuthorization.
  destruct (Request.user req ≫= ReqUser.role); [destruct (negb _)|]; reflexivity.
Qed.

Lemma evolves_verifyToken req : evolves (verifyToken req).
Proof.
  apply evolves_same. intros w. rewrite verifyToken_run. cbv zeta.
  repeat (match goal with
          | |- context [match ?x with _ => _ end] => destruct x
          end; try reflexivity).
Qed.

(** One step of a proof that a handler [evolves]: by its shape. *)
Ltac evolves_step :=
  lazymatch goal with
  | |- evolves (mbind _ _) => apply evolves_bind; [|intros ?]
  | |- evolves (try_catch _ _) => apply evolves_try_catch; [|intros ?]
  | |- evolves (match ?x with _ => _ end) => destruct x
  | |- evolves (let _ := _ in _) => cbv zeta
  | |- evolves _ =>
      first [ apply evolves_ret | apply evolves_throw | apply evolves_get
            | apply evolves_query | apply evolves_lift | apply evolves_Date_now
            | apply evolves_res_json
            | apply evolves_session_update_flag | apply evolves_user_findOne
            | apply evolves_user_findOne_include | apply evolves_user_findByPk
            | apply evolves_user_findByPk_include | apply evolves_user_save
            | apply evolves_user_create | apply evolves_role_create
            | apply evolves_user_roles_create | apply evolves_sendVerificationEmail
            | apply evolves_bcrypt_hash | apply evolves_req_user_id ]
  end.

Ltac evolves_handler h := intros req; unfold h; cbv zeta; repeat evolves_step.

Lemma evolves_login req : evolves (login req).
Proof.
  intros w. rewrite login_run. cbv zeta.
  destruct (negb _ || negb _); [reflexivity|].
  destruct (db.user.select _ w) as [user|]; [|reflexivity].
  destruct (negb (bcrypt.compare _ _)); [reflexivity|].
  destruct (jwt.sign _ _ _ _ _) as [e|token] eqn:Hsign; [reflexivity|].
  destruct (sessions w !! token) eqn:Hl; [reflexivity|].
  simpl. apply Rs_insert; [exact Hl|]. eapply Ins_login, Hsign.
Qed.
Lemma evolves_signup req : evolves (signup req).
Proof. revert req. evolves_handler @signup. Qed.
Lemma evolves_resendVerificationEmail req : evolves (resendVerificationEmail req).
Proof. revert req. evolves_handler @resendVerificationEmail. Qed.
Lemma evolves_verification req : evolves (verification req).
Proof. revert req. evolves_handler @verification. Qed.
Lemma evolves_verifyUser req : evolves (verifyUser req).
Proof. revert req. evolves_handler @verifyUser. Qed.
Lemma evolves_forgotPassword req : evolves (forgotPassword req).
Proof. revert req. evolves_handler @forgotPassword. Qed.
Lemma evolves_resetPassword req : evolves (resetPassword req).
Proof. revert req. evolves_handler @resetPassword. Qed.
Lemma evolves_logout req : evolves (logout req).
Proof. revert req. evolves_handler @logout. Qed.
Lemma evolves_getUser req : evolves (getUser req).
Proof. revert req. evolves_handler @getUser. Qed.
Lemma evolves_updateUser req : evolves (updateUser req).
Proof. revert req. evolves_handler @updateUser. Qed.
Lemma evolves_changePassword req : evolves (changePassword req).
Proof. revert req. evolves_handler @changePassword. Qed.
Lemma evolves_createRole req : evolves (createRole req).
Proof. revert req. evolves_handler @createRole. Qed.
Lemma evolves_assignRoleToUser req : evolves (assignRoleToUser req).
Proof. revert req. evolves_handler @assignRoleToUser. Qed.
Lemma evolves_getUserRoles req : evolves (getUserRoles req).
Proof. revert req. evolves_handler @getUserRoles. Qed.

Lemma evolves_chain hs req : Forall (λ h, ∀ req, evolves (h req)) hs → evolves (chain hs req).
Proof.
  intros Hhs. revert req. induction Hhs as [|h hs Hh _ IH]; intros req; simpl.
  - apply evolves_ret.
  - apply evolves_bind; [apply Hh|]. intros [r|req']; [apply evolves_ret|apply IH].
Qed.

Lemma evolves_serve r req : evolves (serve r req).
Proof.
  unfold serve. apply evolves_chain.
  destruct r; simpl; repeat constructor; intros req';
    first [ apply evolves_validate | apply evolves_validationErrorHandler
          | apply evolves_verifyToken | apply evolves_roleAuthorization
          | apply evolves_login | apply evolves_signup
          | apply evolves_resendVerificationEmail | apply evolves_verification
          | apply evolves_verifyUser | apply evolves_forgotPassword
          | apply evolves_resetPassword | apply evolves_logout | apply evolves_getUser
          | apply evolves_updateUser | apply evolves_changePassword
          | apply evolves_createRole | apply evolves_assignRoleToUser
          | apply evolves_getUserRoles ].
Qed.

Lemma evolves_run es w : Rs (sessions w) (sessions (run es w)).
Proof.
  revert w. induction es as [|e es IH]; intros w; [reflexivity|].
  simpl. etransitivity; [|apply IH].
  destruct e as [r req|c s m]; simpl; [apply evolves_serve|reflexivity].
Qed.

End session_table.

(** ** Revocation *)

#[global] Instance flags_kept_preorder : PreOrder flags_kept.
Proof.
  split.
  - intros m tok s Hl Hf. eauto.
  - intros m1 m2 m3 H12 H23 tok s Hl Hf.
    destruct (H12 tok s Hl Hf) as (s' & Hl' & Hf'). eauto.
Qed.

Lemma flags_kept_insert (m : gmap string Session.t) tok s :
  m !! tok = None → flags_kept m (<[tok := s]> m).
Proof.
  intros Hnone tok' s' Hl Hf. exists s'. split; [|exact Hf].
  rewrite lookup_insert_ne; [exact Hl|]. intros ->. congruence.
Qed.

Lemma flags_kept_raise (m : gmap string Session.t) tok s :
  m !! tok = Some s → flags_kept m (<[tok := Session.set_flag true s]> m).
Proof.
  intros Hsome tok' s' Hl Hf. destruct (decide (tok = tok')) as [<-|Hne].
  - exists (Session.set_flag true s). rewrite lookup_insert_eq. split; reflexivity.
  - exists s'. rewrite lookup_insert_ne by exact Hne. split; assumption.
Qed.

Section revocation.
Context `{!jwt.Wire, !bcrypt.Impl, !Env, !validator.Impl}.

Lemma chain_respond h hs req w r w' :
  h req w = (inr (Respond r), w') → chain (h :: hs) req w = (inr (Respond r), w').
Proof. intros Hh. simpl. rewrite run_bind, Hh. reflexivity. Qed.

Lemma chain_next h hs req w req' w' :
  h req w = (inr (Next req'), w') → chain (h :: hs) req w = chain hs req' w'.
Proof. intros Hh. simpl. rewrite run_bind, Hh. reflexivity. Qed.

Lemma blacklisted_turned_away tok req w :
  revoked w tok ∨ unknown w tok → bearer req = Some tok → turned_away tok req w.
Proof.
  intros Hbl Hb. unfold turned_away.
  assert (∃ r w', verifyToken req w = (inr (Respond r), w')
                  ∧ Response.status r = 401 ∧ same_tables w w'
                  ∧ (∀ decoded,
                       jwt.verify (Some tok) publicKey (Some [jwt.RS256]) (seconds (clock w))
                       = inr decoded →
                       complete decoded = true →
                       Response.body r = message "Token is blacklisted"))
    as (r & w' & Hrun & Hst & Hsame & Hmsg).
  { rewrite verifyToken_run, Hb.
    destruct (bool_decide (tok = "")) eqn:Hempty.
    { apply bool_decide_eq_true in Hempty.
      eexists _, _. split; [reflexivity|]. split; [reflexivity|].
      split; [apply same_tables_refl|]. intros decoded Hv _. exfalso.
      exact (verify_nonempty _ _ _ _ _ Hv Hempty). }
    destruct (jwt.verify _ _ _ _) as [err|decoded] eqn:Hv.
    { eexists _, _. split; [reflexivity|]. split; [reflexivity|].
      split; [apply same_tables_refl|]. intros decoded [=]. }
    destruct (complete decoded) eqn:Hc; cbn beta iota delta [negb].
    - destruct Hbl as [(s & Hs & Hf)|Hu].
      + rewrite Hs, Hf. eexists _, _. split; [reflexivity|]. split; [reflexivity|].
        split; [apply same_tables_log|]. reflexivity.
      + unfold unknown in Hu. rewrite Hu.
        eexists _, _. split; [reflexivity|]. split; [reflexivity|].
        split; [apply same_tables_log|]. reflexivity.
    - eexists _, _. split; [reflexivity|]. split; [reflexivity|].
      split; [apply same_tables_refl|]. intros d [= <-] Hc'. congruence. }
  exists r, w'. repeat split; try assumption; try apply Hsame.
  intros protected. apply chain_respond, Hrun.
Qed.

Lemma revoked_run w es tok : revoked w tok → revoked (run es w) tok.
Proof.
  intros (s & Hs & Hf).
  exact (evolves_run flags_kept (λ _ _, True) (λ _ _ _ _, I)
           (λ m tok s Hnone _, flags_kept_insert m tok s Hnone) flags_kept_raise
           es w tok s Hs Hf).
Qed.

Lemma logout_revokes tok req w u s :
  bearer req = Some tok → Request.user req = Some u →
  sessions w !! tok = Some s → Session.userId s = Some (ReqUser.id u) →
  (logout req w).1 = inr (answer 200 "Logged out successfully")
  ∧ revoked (logout req w).2 tok.
Proof.
  unfold bearer. intros Hb Hu Hs Hid.
  destruct (Request.authorization req) as [h|] eqn:Hh; [|discriminate]. simpl in Hb.
  unfold logout, req_user_id. rewrite Hu, Hh. mrun. rewrite Hb. mrun.
  split; [reflexivity|]. unfold revoked, set_sessions, log, set_queries. simpl.
  rewrite Hs, Hid.
  rewrite bool_decide_eq_true_2 by reflexivity.
  exists (Session.set_flag true s). rewrite lookup_insert_eq. split; reflexivity.
Qed.

#[local] Instance keeps_bound_preorder : PreOrder keeps_bound.
Proof.
  split.
  - intros m Hm. exact Hm.
  - intros m1 m2 m3 H12 H23 Hm. apply H23, H12, Hm.
Qed.

Lemma bound_login user now token :
  jwt.sign (session_claims user) privateKey (Some jwt.RS256) one_hour now = inr token →
  bound_row token (session_row user).
Proof.
  intros (kid & _ & ->)%sign_RS256. eexists _, _.
  rewrite jwt.parse_serialize. repeat split.
Qed.

Lemma keeps_bound_insert (m : gmap string Session.t) tok s :
  m !! tok = None → bound_row tok s → keeps_bound m (<[tok := s]> m).
Proof.
  intros _ Hrow Hm tok' s'. destruct (decide (tok = tok')) as [<-|Hne].
  - rewrite lookup_insert_eq. intros [= <-]. exact Hrow.
  - rewrite lookup_insert_ne by exact Hne. apply Hm.
Qed.

Lemma keeps_bound_raise (m : gmap string Session.t) tok s :
  m !! tok = Some s → keeps_bound m (<[tok := Session.set_flag true s]> m).
Proof.
  intros Hs Hm tok' s'. destruct (decide (tok = tok')) as [<-|Hne].
  - rewrite lookup_insert_eq. intros [= <-]. apply (Hm tok s Hs).
  - rewrite lookup_insert_ne by exact Hne. apply Hm.
Qed.

(** In every state the application reaches from its start, the rows of
    the Sessions table are bound. *)
Lemma bound_run clock0 es : bound (sessions (run es (initial clock0))).
Proof.
  apply (evolves_run keeps_bound bound_row bound_login keeps_bound_insert keeps_bound_raise).
  intros tok s. simpl. rewrite lookup_empty. discriminate.
Qed.

(** GET /logout, when its answer is 200, has raised the flag of the
    bearer token. *)
Lemma logout_route_revokes tok req w r w' :
  bound (sessions w) → bearer req = Some tok →
  serve GET_logout req w = (inr (Respond r), w') → Response.status r = 200 →
  revoked w' tok.
Proof.
  intros Hbound Hb. unfold serve. simpl middlewares. simpl chain.
  rewrite run_bind, verifyToken_run, Hb. cbv zeta.
  destruct (bool_decide (tok = "")); [intros [= <- <-]; discriminate|].
  destruct (jwt.verify _ _ _ _) as [e|decoded] eqn:Hv; [intros [= <- <-]; discriminate|].
  destruct (negb (complete decoded)); [intros [= <- <-]; discriminate|].
  destruct (sessions w !! tok) as [s|] eqn:Hs; [|intros [= <- <-]; discriminate].
  destruct (Session.flag s); [intros [= <- <-]; discriminate|].
  destruct (db.user.select _ w) as [user|] eqn:Hsel; [|intros [= <- <-]; discriminate].
  destruct (Hbound tok s Hs) as (t & uid & Hparse & Huid & Hrow).
  apply verify_payload in Hv as (t' & Hparse' & ->).
  assert (t' = t) as -> by congruence.
  apply select_Some in Hsel as [_ Hall].
  specialize (Hall (where_id (jwt.id (jwt.payload t)))). simpl in Hall.
  rewrite bool_decide_eq_true in Hall.
  assert (uid = User.id user) as ->.
  { assert (jwt.id (jwt.payload t) = Some (User.id user)) by (apply Hall; left). congruence. }
  rewrite run_bind.
  match goal with
  | |- context [logout ?r ?w0] =>
      destruct (logout_revokes tok r w0 _ s Hb eq_refl Hs Hrow) as [Hans Hrev];
      destruct (logout r w0) as [[e|[r0|req0]] w0'] eqn:Hrun
  end; simpl in Hans; try discriminate.
  intros [= <- <-] _. exact Hrev.
Qed.

(** C1.  A bearer token whose Sessions row has its flag raised, or
    which has no Sessions row, is turned away by the Access Middleware:
    the answer is 401, no protected handler runs, no table changes, and
    when the signature, the expiry and the claims of the token are in
    order the message is 'Token is blacklisted'.  A raised flag stays
    raised whatever requests are served and however the environment
    moves afterwards, so a revoked token is turned away on every later
    request.  Logging out with the token raises the flag of its row:
    in every state the application reaches from its start, a GET
    /logout that answers 200 leaves the bearer token revoked, and the
    token is turned away ever after. *)
Theorem revoked_token_never_authenticates (tok : string) :
  (∀ w req, revoked w tok ∨ unknown w tok → bearer req = Some tok →
            turned_away tok req w)
  ∧ (∀ w es, revoked w tok → revoked (run es w) tok)
  ∧ (∀ w es req, revoked w tok → bearer req = Some tok →
                 turned_away tok req (run es w))
  ∧ (∀ w req u s,
       bearer req = Some tok → Request.user req = Some u →
       sessions w !! tok = Some s → Session.userId s = Some (ReqUser.id u) →
       (logout req w).1 = inr (answer 200 "Logged out successfully")
       ∧ revoked (logout req w).2 tok)
  ∧ (∀ clock0 es req r w',
       bearer req = Some tok →
       serve GET_logout req (run es (initial clock0)) = (inr (Respond r), w') →
       Response.status r = 200 →
       revoked w' tok
       ∧ ∀ es' req', bearer req' = Some tok → turned_away tok req' (run es' w')).
Proof.
  split; [|split; [|split; [|split]]].
  - intros w req Hbl Hb. apply blacklisted_turned_away; assumption.
  - intros w es Hr. apply revoked_run, Hr.
  - intros w es req Hr Hb. apply blacklisted_turned_away; [|exact Hb].
    left. apply revoked_run, Hr.
  - intros w req u s. apply logout_revokes.
  - intros clock0 es req r w' Hb Hrun H200.
    assert (revoked w' tok) as Hr.
    { eapply logout_route_revokes; eauto. apply bound_run. }
    split; [exact Hr|]. intros es' req' Hb'.
    apply blacklisted_turned_away; [|exact Hb']. left. apply revoked_run, Hr.
Qed.

(** C5.  A bearer token that the verifier accepts (signed for the
    public key under RS256, not expired) but whose claims lack the
    identity id or the username is answered 401 'Token is missing
    required user information' by the Access Middleware, which then
    calls no later stage and leaves the state as it found it: no
    query has been sent, neither to the Sessions table nor to the
    Users table. *)
Theorem incomplete_claims_rejected (req : Request.t) (w : World) (tok : string)
    (decoded : jwt.Payload) :
  bearer req = Some tok →
  jwt.verify (Some tok) publicKey (Some [jwt.RS256]) (seconds (clock w)) = inr decoded →
  jwt.id decoded = None ∨ jwt.username decoded = None →
  verifyToken req w
  = (inr (answer 401 "Token is missing required user information"), w)
  ∧ (∀ protected,
       chain (verifyToken :: protected) req w
       = (inr (answer 401 "Token is missing required user information"), w))
  ∧ queries (verifyToken req w).2 = queries w.
Proof.
  intros Hb Hv Hmiss.
  assert (verifyToken req w
          = (inr (answer 401 "Token is missing required user information"), w)) as Hrun.
  { rewrite verifyToken_run, Hb.
    rewrite bool_decide_eq_false_2 by exact (verify_nonempty _ _ _ _ _ Hv).
    rewrite Hv. unfold complete.
    destruct Hmiss as [-> | ->]; simpl; [reflexivity|].
    rewrite andb_false_r. reflexivity. }
  repeat apply conj.
  - exact Hrun.
  - intros protected. apply chain_respond, Hrun.
  - rewrite Hrun. reflexivity.
Qed.

#[local] Instance owners_kept_preorder : PreOrder owners_kept.
Proof.
  split.
  - intros m tok s Hs. eauto.
  - intros m1 m2 m3 H12 H23 tok s Hs.
    destruct (H12 tok s Hs) as (s2 & Hs2 & Hu2).
    destruct (H23 tok s2 Hs2) as (s3 & Hs3 & Hu3).
    exists s3. split; [exact Hs3|congruence].
Qed.

Lemma owners_kept_insert (m : gmap string Session.t) tok s :
  m !! tok = None → owners_kept m (<[tok := s]> m).
Proof.
  intros Hnone tok' s' Hs'. exists s'. split; [|reflexivity].
  rewrite lookup_insert_ne; [exact Hs'|]. intros ->. congruence.
Qed.

Lemma owners_kept_raise (m : gmap string Session.t) tok s :
  m !! tok = Some s → owners_kept m (<[tok := Session.set_flag true s]> m).
Proof.
  intros Hs tok' s' Hs'. destruct (decide (tok = tok')) as [<-|Hne].
  - exists (Session.set_flag true s). rewrite lookup_insert_eq.
    split; [reflexivity|]. simpl. congruence.
  - exists s'. rewrite lookup_insert_ne by exact Hne. split; [exact Hs'|reflexivity].
Qed.

(** X1.  A Sessions row is bound to one identity at creation and for
    good: in every state the application reaches from its start, the
    row of a token belongs to the identity the token names in its
    claims, and whatever is served afterwards the token keeps a row,
    with the same owner. *)
Theorem session_row_bound_to_one_identity (clock0 : N) (es es' : list Event)
    (tok : string) (s : Session.t) :
  sessions (run es (initial clock0)) !! tok = Some s →
  bound_row tok s
  ∧ ∃ s', sessions (run es' (run es (initial clock0))) !! tok = Some s'
          ∧ Session.userId s' = Session.userId s.
Proof.
  intros Hs. split.
  - exact (bound_run clock0 es tok s Hs).
  - exact (evolves_run owners_kept (λ _ _, True) (λ _ _ _ _, I)
             (λ m tok s Hnone _, owners_kept_insert m tok s Hnone) owners_kept_raise
             es' _ tok s Hs).
Qed.

End revocation.

Section login_properties.
Context `{!jwt.Wire, !bcrypt.Impl, !Env, !validator.Impl}.

Lemma select_username_None w (name : option string) :
  (∀ u, u ∈ users w → Some (User.username u) ≠ name) →
  db.user.select [where_username name] w = None.
Proof.
  intros Hno. destruct (db.user.select _ w) as [u|] eqn:Hs; [|reflexivity].
  apply select_Some in Hs as [Hin Hall].
  specialize (Hall (where_username name)). simpl in Hall.
  rewrite bool_decide_eq_true in Hall. destruct (Hno u Hin). symmetry. apply Hall. left.
Qed.

(** C3.  A login request carries a username and a password.  When no
    stored identity has that username, or the password does not match
    the hash of the identity found, the answer is 401 'Invalid username
    or password' and the Sessions table, like every other table, is
    what it was.  A row is written to the Sessions table only after
    the identity was found and its password matched; whenever login
    answers with another status than 200, the Sessions table is
    unchanged. *)
Theorem failed_login_creates_no_session (req : Request.t) (w : World) :
  (truthy_string (Body.username (Request.body req)) = true →
   truthy_string (Body.password (Request.body req)) = true →
   ((∀ u, u ∈ users w → Some (User.username u) ≠ Body.username (Request.body req))
    ∨ ∃ user,
        db.user.select [where_username (Body.username (Request.body req))] w = Some user
        ∧ bcrypt.compare (default "" (Body.password (Request.body req)))
                         (User.password user) = false) →
   (login req w).1 = inr (answer 401 "Invalid username or password")
   ∧ sessions (login req w).2 = sessions w
   ∧ same_tables w (login req w).2)
  ∧ (sessions (login req w).2 ≠ sessions w →
     ∃ user,
       db.user.select [where_username (Body.username (Request.body req))] w = Some user
       ∧ bcrypt.compare (default "" (Body.password (Request.body req)))
                        (User.password user) = true)
  ∧ (∀ r, (login req w).1 = inr (Respond r) → Response.status r ≠ 200 →
          sessions (login req w).2 = sessions w).
Proof.
  rewrite login_run. cbv zeta. repeat apply conj.
  - intros Hu Hp Hfail. rewrite Hu, Hp. cbn beta iota delta [negb orb].
    destruct Hfail as [Hunknown|(user & Hs & Hcmp)].
    + rewrite (select_username_None _ _ Hunknown).
      repeat split.
    + rewrite Hs, Hcmp. repeat split.
  - destruct (negb _ || negb _); [intros []; reflexivity|].
    destruct (db.user.select _ w) as [user|]; [|intros []; reflexivity].
    destruct (bcrypt.compare _ _) eqn:Hcmp; [eauto|intros []; reflexivity].
  - intros r.
    destruct (negb _ || negb _); [reflexivity|].
    destruct (db.user.select _ w) as [user|]; [|reflexivity].
    destruct (negb (bcrypt.compare _ _)); [reflexivity|].
    destruct (jwt.sign _ _ _ _ _) as [e|token]; [reflexivity|].
    destruct (sessions w !! token); [reflexivity|].
    simpl. intros [= <-] Hne. destruct Hne. reflexivity.
Qed.

(** Login with the username and the right password, when the token
    being issued is not in the Sessions table yet. *)
Lemma login_ok (req : Request.t) (w : World) (user : User.t) (kid password : string) :
  privateKey = jwt.PrivateKey kid →
  truthy_string (Body.username (Request.body req)) = true →
  Body.password (Request.body req) = Some password → password ≠ "" →
  db.user.select [where_username (Body.username (Request.body req))] w = Some user →
  bcrypt.compare password (User.password user) = true →
  sessions w !! jwt.serialize (session_token user (seconds (clock w))) = None →
  login req w
  = (inr (Respond {| Response.status := 200;
                     Response.body :=
                       JObj [("token",
                              JStr (jwt.serialize (session_token user (seconds (clock w)))))] |}),
     set_sessions <[jwt.serialize (session_token user (seconds (clock w))) := session_row user]>
       (log (Q_session_create (jwt.serialize (session_token user (seconds (clock w))))
                              (User.id user))
            (log (Q_user_findOne [where_username (Body.username (Request.body req))]) w))).
Proof.
  intros Hk Hu Hp Hne Hs Hcmp Hfresh. rewrite login_run. cbv zeta.
  rewrite Hu, Hp, (truthy_some_nonempty _ Hne). cbn beta iota delta [negb orb].
  rewrite Hs. simpl default. rewrite Hcmp. cbn beta iota delta [negb].
  unfold session_token in *. rewrite Hk in *. rewrite sign_RS256_private.
  rewrite Hfresh. reflexivity.
Qed.

(** X3.  What login issues.  Take a stored identity with a non-empty
    username, which is the row the lookup by that username finds, a
    login request that carries the username and a non-empty password
    that bcrypt matches against the stored hash, and the two halves of
    one RSA key pair as the configured keys.  When the Sessions table
    does not already hold the token being issued, login answers 200
    with a token and records it, unrevoked, for that identity.  The
    token is signed under RS256 with the private key; the
    session-token verifier decodes it to exactly the identity id, the
    username and the email-verified flag (beside iat and exp), and
    accepts it until one hour after it was issued, and no longer. *)
Theorem login_issues_session_token (req : Request.t) (w : World) (user : User.t)
    (kid password : string) :
  privateKey = jwt.PrivateKey kid → publicKey = jwt.PublicKey kid →
  user ∈ users w →
  db.user.select [where_username (Some (User.username user))] w = Some user →
  Body.username (Request.body req) = Some (User.username user) →
  User.username user ≠ "" →
  Body.password (Request.body req) = Some password → password ≠ "" →
  bcrypt.compare password (User.password user) = true →
  sessions w !! jwt.serialize (session_token user (seconds (clock w))) = None →
  ∃ token w',
    login req w = (inr (Respond {| Response.status := 200;
                                   Response.body := JObj [("token", JStr token)] |}), w')
    ∧ sessions w' = <[token := session_row user]> (sessions w)
    ∧ users w' = users w
    ∧ (∃ t, jwt.parse token = Some t ∧ jwt.alg t = jwt.RS256
            ∧ jwt.signed_by t = Some privateKey)
    ∧ ∀ t,
        jwt.verify (Some token) publicKey (Some [jwt.RS256]) t
        = if bool_decide (seconds (clock w) + 3600 ≤ t) then inl "jwt expired"
          else inr {| jwt.id := Some (User.id user);
                      jwt.username := Some (User.username user);
                      jwt.email := None;
                      jwt.verified := Some (User.emailVerified user);
                      jwt.iat := Some (seconds (clock w));
                      jwt.exp := Some (seconds (clock w) + 3600) |}.
Proof.
  intros Hk Hpub Hin Hs Hu Hune Hp Hpne Hcmp Hfresh.
  eexists _, _. split.
  { eapply login_ok; eauto.
    - rewrite Hu. apply truthy_some_nonempty, Hune.
    - rewrite Hu. exact Hs. }
  repeat apply conj.
  - reflexivity.
  - reflexivity.
  - eexists. rewrite jwt.parse_serialize. repeat split.
  - intros t. unfold session_token. rewrite Hk, Hpub.
    rewrite verify_RS256_issued. reflexivity.
Qed.

End login_properties.

(** ** POST /login *)

Section login_route.
Context `{!jwt.Wire, !bcrypt.Impl, !Env, !validator.Impl}.

(** A validator array followed by [validationErrorHandler], on a
    request that carries no earlier validation error. *)
Lemma validated_chain check rest (req : Request.t) (w : World) :
  Request.validationErrors req = [] →
  chain (validate check :: validationErrorHandler :: rest) req w =
  match check req with
  | [] => chain rest (Request.add_errors [] req) w
  | errors =>
      (inr (Respond {| Response.status := 400;
                       Response.body :=
                         JObj [("errors", JArr ((λ m, JObj [("msg", JStr m)]) <$> errors))] |}),
       w)
  end.
Proof.
  intros Hfresh. erewrite chain_next by reflexivity.
  destruct (check req) as [|e es] eqn:Hcheck.
  - erewrite chain_next; [reflexivity|].
    unfold validationErrorHandler. simpl. rewrite Hfresh. reflexivity.
  - apply chain_respond. unfold validationErrorHandler. simpl. rewrite Hfresh. reflexivity.
Qed.

Lemma serve_login_run (req : Request.t) (w : World) :
  Request.validationErrors req = [] →
  serve POST_login req w =
  match login_errors req with
  | [] => login req w
  | errors =>
      (inr (Respond {| Response.status := 400;
                       Response.body :=
                         JObj [("errors", JArr ((λ m, JObj [("msg", JStr m)]) <$> errors))] |}),
       w)
  end.
Proof.
  intros Hfresh. unfold serve. simpl middlewares. unfold validateLogin.
  rewrite (validated_chain _ _ _ _ Hfresh). cbn beta. fold (login_errors req).
  destruct (login_errors req) as [|e es]; [|reflexivity].
  simpl chain. rewrite run_bind.
  change (login (Request.add_errors [] req) w) with (login req w).
  destruct (login req w) as [[e|[r|req']] w']; reflexivity.
Qed.

Lemma login_errors_email_only (req : Request.t) :
  validator.isEmail (default "" (Body.email (Request.body req))) = true →
  (6 ≤ String.length (default "" (Body.password (Request.body req))))%nat →
  login_errors req = [].
Proof.
  intros Hemail Hlen. unfold login_errors, oneOf, isEmail, isLength_min.
  rewrite Hemail. rewrite (bool_decide_eq_true_2 _ Hlen).
  destruct (notEmpty _ _); reflexivity.
Qed.

(** C7, as the code has it.  POST /login identifies the user by the
    username alone.  A request without a username is answered 400
    whatever email it supplies and whatever is stored: when the email
    is valid and the password has six characters or more it passes
    [validateLogin] and is refused by the handler with 'Username and
    password are required'; no row is written.  A request that carries
    a stored identity's username and password is answered 200 with a
    token, when the Sessions table does not already hold the token
    being issued. *)
Theorem login_requires_username (req : Request.t) (w : World) :
  (truthy_string (Body.username (Request.body req)) = false →
   login req w = (inr (answer 400 "Username and password are required"), w))
  ∧ (Request.validationErrors req = [] →
     truthy_string (Body.username (Request.body req)) = false →
     ∃ r, serve POST_login req w = (inr (Respond r), w) ∧ Response.status r = 400)
  ∧ (Request.validationErrors req = [] →
     truthy_string (Body.username (Request.body req)) = false →
     validator.isEmail (default "" (Body.email (Request.body req))) = true →
     (6 ≤ String.length (default "" (Body.password (Request.body req))))%nat →
     serve POST_login req w = (inr (answer 400 "Username and password are required"), w))
  ∧ (∀ user kid password,
       privateKey = jwt.PrivateKey kid →
       db.user.select [where_username (Some (User.username user))] w = Some user →
       Body.username (Request.body req) = Some (User.username user) →
       User.username user ≠ "" →
       Body.password (Request.body req) = Some password → password ≠ "" →
       bcrypt.compare password (User.password user) = true →
       sessions w !! jwt.serialize (session_token user (seconds (clock w))) = None →
       (login req w).1
       = inr (Respond {| Response.status := 200;
                         Response.body :=
                           JObj [("token",
                                  JStr (jwt.serialize
                                          (session_token user (seconds (clock w)))))] |})).
Proof.
  assert (truthy_string (Body.username (Request.body req)) = false →
          login req w = (inr (answer 400 "Username and password are required"), w)) as Hlogin.
  { intros Hu. rewrite login_run. cbv zeta. rewrite Hu. reflexivity. }
  repeat apply conj.
  - exact Hlogin.
  - intros Hfresh Hu. rewrite (serve_login_run _ _ Hfresh).
    destruct (login_errors req).
    + rewrite (Hlogin Hu). eexists. split; reflexivity.
    + eexists. split; reflexivity.
  - intros Hfresh Hu Hemail Hlen. rewrite (serve_login_run _ _ Hfresh).
    rewrite (login_errors_email_only _ Hemail Hlen). apply Hlogin, Hu.
  - intros user kid password Hk Hs Hu Hune Hp Hpne Hcmp Hfresh'.
    erewrite login_ok; eauto.
    + rewrite Hu. apply truthy_some_nonempty, Hune.
    + rewrite Hu. exact Hs.
Qed.

End login_route.

(** ** controllers/auth.controller.js: verification and resetPassword *)

Section action_tokens.
Context `{!jwt.Wire, !bcrypt.Impl, !Env, !validator.Impl}.

(** Every path through [verification]. *)
Lemma verification_run (req : Request.t) (w : World) :
  verification req w =
  match jwt.verify (Params.token (Request.params req)) (jwt.Secret secret) None
                   (seconds (clock w)) with
  | inl e => (inr (refuse 400 "Invalid or expired verification link" e), w)
  | inr decoded =>
      let wh := [where_id (jwt.id decoded); where_email (jwt.email decoded)] in
      match List.find cond_undefined wh with
      | Some c =>
          (inr (refuse 400 "Invalid or expired verification link" (where_error (cond_key c))),
           log (Q_user_findOne wh) w)
      | None =>
          match db.user.select wh w with
          | None => (inr (answer 400 "Invalid verification link"), log (Q_user_findOne wh) w)
          | Some user =>
              let user' := User.set_emailVerified true user in
              if bool_decide (user' = user)
              then (inr (answer 200 "User verified successfully"), log (Q_user_findOne wh) w)
              else if db.user.unique_violation user' w
              then (inr (refuse 400 "Invalid or expired verification link" "Validation error"),
                    log (Q_user_save (User.id user)) (log (Q_user_findOne wh) w))
              else (inr (answer 200 "User verified successfully"),
                    set_users (db.user.replace (User.set_updatedAt (clock w) user'))
                      (log (Q_user_save (User.id user)) (log (Q_user_findOne wh) w)))
          end
      end
  end.
Proof.
  unfold verification. cbv zeta. mrun.
  destruct (jwt.verify _ _ _ _) as [e|decoded]; [reflexivity|].
  mrun. destruct (List.find cond_undefined _) as [c|]; [reflexivity|].
  cbn beta iota. change (db.user.select ?wh (log ?q w)) with (db.user.select wh w).
  destruct (db.user.select _ w) as [user|]; [|reflexivity].
  mrun. destruct (bool_decide _); [reflexivity|].
  change (db.user.unique_violation ?u (log ?q w)) with (db.user.unique_violation u w).
  destruct (db.user.unique_violation _ w); reflexivity.
Qed.

Lemma resetPassword_refused_token (req : Request.t) (w : World) e :
  jwt.verify (Body.token (Request.body req)) (jwt.Secret secret) None (seconds (clock w))
  = inl e →
  resetPassword req w = (inr (refuse 400 "Invalid or expired token" e), w).
Proof. intros Hv. unfold resetPassword. cbv zeta. mrun. rewrite Hv. reflexivity. Qed.

Lemma resetPassword_refused_claims (req : Request.t) (w : World) decoded :
  jwt.verify (Body.token (Request.body req)) (jwt.Secret secret) None (seconds (clock w))
  = inr decoded →
  jwt.username decoded = None →
  ∃ e, resetPassword req w
       = (inr (refuse 400 "Invalid or expired token" e),
          log (Q_user_findOne [where_id (jwt.id decoded); where_username None]) w).
Proof.
  intros Hv Hu. unfold resetPassword. cbv zeta. mrun. rewrite Hv. mrun. rewrite Hu.
  destruct (jwt.id decoded); simpl; eexists; reflexivity.
Qed.

Lemma verification_refused_claims (req : Request.t) (w : World) decoded :
  jwt.verify (Params.token (Request.params req)) (jwt.Secret secret) None (seconds (clock w))
  = inr decoded →
  jwt.email decoded = None →
  ∃ e, verification req w
       = (inr (refuse 400 "Invalid or expired verification link" e),
          log (Q_user_findOne [where_id (jwt.id decoded); where_email None]) w).
Proof.
  intros Hv Hu. rewrite verification_run, Hv. cbv zeta. rewrite Hu.
  destruct (jwt.id decoded); simpl; eexists; reflexivity.
Qed.

(** C2.  The two token families are not interchangeable.  A token
    issued for email verification or for password reset (signed with
    the shared secret) is answered 401 by the Access Middleware, which
    pins RS256.  A token signed under RS256 with the private key, as
    session tokens are, is answered 400 by the verification endpoint
    and by the reset-password endpoint (whether it is sent in the body,
    which is where the handler reads it, or only in the path), which
    verify against the shared secret.  An email-verification token is
    answered 400 by reset-password and a reset token is answered 400
    by the verification endpoint, since each looks the identity up by
    a claim the other kind does not carry.  None of these requests
    changes a table. *)
Theorem token_families_not_interchangeable (req : Request.t) (w : World) (user : User.t)
    (issued_at : N) :
  (∀ claims token,
     claims = verification_claims user ∨ claims = reset_claims user →
     jwt.sign claims (jwt.Secret secret) None one_hour issued_at = inr token →
     bearer req = Some token →
     verifyToken req w = (inr (answer 401 "Invalid token"), w))
  ∧ (∀ claims token,
       jwt.sign claims privateKey (Some jwt.RS256) one_hour issued_at = inr token →
       (Params.token (Request.params req) = Some token →
        ∃ e, verification req w
             = (inr (refuse 400 "Invalid or expired verification link" e), w))
       ∧ (Body.token (Request.body req) = Some token →
          ∃ e, resetPassword req w = (inr (refuse 400 "Invalid or expired token" e), w))
       ∧ (Params.token (Request.params req) = Some token →
          Body.token (Request.body req) = None →
          ∃ e, resetPassword req w = (inr (refuse 400 "Invalid or expired token" e), w)))
  ∧ (∀ token,
       jwt.sign (verification_claims user) (jwt.Secret secret) None one_hour issued_at
       = inr token →
       Body.token (Request.body req) = Some token →
       ∃ e w', resetPassword req w = (inr (refuse 400 "Invalid or expired token" e), w')
               ∧ same_tables w w')
  ∧ (∀ token,
       jwt.sign (reset_claims user) (jwt.Secret secret) None one_hour issued_at = inr token →
       Params.token (Request.params req) = Some token →
       ∃ e w', verification req w
               = (inr (refuse 400 "Invalid or expired verification link" e), w')
               ∧ same_tables w w').
Proof.
  split; [|split; [|split]].
  - intros claims token _ Hsign Hb.
    apply sign_secret in Hsign as (s & _ & _ & ->).
    rewrite verifyToken_run, Hb.
    rewrite bool_decide_eq_false_2 by apply jwt.serialize_nonempty.
    rewrite verify_RS256_rejects_HS256. reflexivity.
  - intros claims token Hsign.
    apply sign_RS256 in Hsign as (kid & _ & ->).
    split; [|split].
    + intros Hp. eexists.
      rewrite verification_run, Hp, verify_secret_rejects_RS256. reflexivity.
    + intros Hb. eexists. apply resetPassword_refused_token.
      rewrite Hb. apply verify_secret_rejects_RS256.
    + intros Hp Hb. eexists. apply resetPassword_refused_token. rewrite Hb. reflexivity.
  - intros token Hsign Hb.
    apply sign_secret in Hsign as (s & [= <-] & Hs & ->).
    destruct (bool_decide (issued_at + one_hour ≤ seconds (clock w))) eqn:Hexp.
    + eexists _, w. split; [|apply same_tables_refl].
      apply resetPassword_refused_token. rewrite Hb.
      rewrite (verify_HS256_issued _ _ _ _ _ Hs), Hexp. reflexivity.
    + edestruct (resetPassword_refused_claims req w) as (e & Hrun).
      * rewrite Hb. rewrite (verify_HS256_issued _ _ _ _ _ Hs), Hexp. reflexivity.
      * reflexivity.
      * eexists _, _. split; [exact Hrun|apply same_tables_log].
  - intros token Hsign Hp.
    apply sign_secret in Hsign as (s & [= <-] & Hs & ->).
    destruct (bool_decide (issued_at + one_hour ≤ seconds (clock w))) eqn:Hexp.
    + eexists _, w. split; [|apply same_tables_refl].
      rewrite verification_run, Hp.
      rewrite (verify_HS256_issued _ _ _ _ _ Hs), Hexp. reflexivity.
    + edestruct (verification_refused_claims req w) as (e & Hrun).
      * rewrite Hp. rewrite (verify_HS256_issued _ _ _ _ _ Hs), Hexp. reflexivity.
      * reflexivity.
      * eexists _, _. split; [exact Hrun|apply same_tables_log].
Qed.

(** X2.  An action token lives for one hour.  A token issued for email
    verification or for password reset verifies against the shared
    secret at every second before the hour has elapsed and at none from
    then on, whatever its signature; presented to its endpoint once the
    hour has elapsed it is answered 400. *)
Theorem action_token_expires (claims : jwt.Payload) (issued_at : N) (token : string) :
  jwt.sign claims (jwt.Secret secret) None one_hour issued_at = inr token →
  (∀ t, t < issued_at + 3600 →
        jwt.verify (Some token) (jwt.Secret secret) None t
        = inr (stamped claims issued_at 3600))
  ∧ (∀ t, issued_at + 3600 ≤ t →
          jwt.verify (Some token) (jwt.Secret secret) None t = inl "jwt expired")
  ∧ (∀ req w,
       Params.token (Request.params req) = Some token →
       issued_at + 3600 ≤ seconds (clock w) →
       verification req w
       = (inr (refuse 400 "Invalid or expired verification link" "jwt expired"), w))
  ∧ (∀ req w,
       Body.token (Request.body req) = Some token →
       issued_at + 3600 ≤ seconds (clock w) →
       resetPassword req w = (inr (refuse 400 "Invalid or expired token" "jwt expired"), w)).
Proof.
  intros (s & [= <-] & Hs & ->)%sign_secret.
  assert (∀ t, issued_at + 3600 ≤ t →
               jwt.verify (Some (jwt.serialize (issued jwt.HS256 claims (jwt.Secret secret)
                                                       issued_at one_hour)))
                          (jwt.Secret secret) None t = inl "jwt expired") as Hexpired.
  { intros t Ht. rewrite (verify_HS256_issued _ _ _ _ _ Hs).
    unfold one_hour. rewrite bool_decide_eq_true_2 by exact Ht. reflexivity. }
  split; [|split; [|split]].
  - intros t Ht. rewrite (verify_HS256_issued _ _ _ _ _ Hs).
    unfold one_hour. rewrite bool_decide_eq_false_2 by lia. reflexivity.
  - exact Hexpired.
  - intros req w Hp Ht. rewrite verification_run, Hp, (Hexpired _ Ht). reflexivity.
  - intros req w Hb Ht. apply resetPassword_refused_token. rewrite Hb. apply Hexpired, Ht.
Qed.

End action_tokens.

(** ** Consuming a verification token *)

Section verification_properties.
Context `{!jwt.Wire, !bcrypt.Impl, !Env, !validator.Impl}.

Lemma set_emailVerified_id user :
  User.emailVerified user = true → User.set_emailVerified true user = user.
Proof. destruct user. simpl. intros ->. reflexivity. Qed.

Lemma set_emailVerified_fixed user :
  User.set_emailVerified true user = user → User.emailVerified user = true.
Proof. intros <-. reflexivity. Qed.

(** After an UPDATE by primary key, a lookup that names the key finds
    the written row. *)
Lemma find_replace wh (u' : User.t) (us : list User.t) (u : User.t) :
  where_id (Some (User.id u')) ∈ wh →
  (∀ c, c ∈ wh → cond_holds u' c = true) →
  List.find (λ v, forallb (cond_holds v) wh) us = Some u →
  List.find (λ v, forallb (cond_holds v) wh) (db.user.replace u' us) = Some u'.
Proof.
  intros Hid Hu'. unfold db.user.replace.
  assert (forallb (cond_holds u') wh = true) as Hmatch'.
  { apply forallb_forall. intros c Hc. apply Hu', list_elem_of_In, Hc. }
  induction us as [|v us IH]; [discriminate|]. simpl.
  destruct (forallb (cond_holds v) wh) eqn:Hv.
  - intros _. rewrite forallb_forall in Hv.
    specialize (Hv (where_id (Some (User.id u')))). simpl in Hv.
    rewrite bool_decide_eq_true in Hv.
    assert (Some (User.id u') = Some (User.id v)) as [= Hidv].
    { apply Hv, list_elem_of_In, Hid. }
    rewrite bool_decide_eq_true_2 by congruence. rewrite Hmatch'. reflexivity.
  - intros Hfind. destruct (bool_decide (User.id v = User.id u')).
    + rewrite Hmatch'. reflexivity.
    + rewrite Hv. apply IH, Hfind.
Qed.

Lemma select_users wh w w' :
  users w' = users w → db.user.select wh w' = db.user.select wh w.
Proof. unfold db.user.select. intros ->. reflexivity. Qed.

Lemma select_defined wh w u :
  db.user.select wh w = Some u → List.find cond_undefined wh = None.
Proof.
  intros Hs. apply select_Some in Hs as [_ Hall].
  destruct (List.find cond_undefined wh) as [c|] eqn:Hf; [|reflexivity].
  apply find_some in Hf as [Hin Hc]. apply list_elem_of_In in Hin.
  specialize (Hall c Hin). destruct c as [[]|[]|[]]; discriminate.
Qed.

(** C9.  Consuming a verification token is idempotent, and nothing
    makes the token single-use.  When a valid, unexpired token names an
    identity (by id and email) whose email-verified flag is already
    set, the endpoint answers 200, writes nothing and the flag stays
    set.  In particular, after a first consumption has answered 200,
    presenting the same token again at any later time at which it has
    not expired is answered 200 again, as long as the Users table is
    what the first consumption left. *)
Theorem verification_can_be_repeated (req : Request.t) (w : World) (token : string) :
  Params.token (Request.params req) = Some token →
  (∀ decoded user,
     jwt.verify (Some token) (jwt.Secret secret) None (seconds (clock w)) = inr decoded →
     db.user.select [where_id (jwt.id decoded); where_email (jwt.email decoded)] w
     = Some user →
     User.emailVerified user = true →
     verification req w
     = (inr (answer 200 "User verified successfully"),
        log (Q_user_findOne [where_id (jwt.id decoded); where_email (jwt.email decoded)]) w)
     ∧ users (verification req w).2 = users w)
  ∧ (∀ w1,
       verification req w = (inr (answer 200 "User verified successfully"), w1) →
       ∀ w2 decoded,
         users w2 = users w1 →
         jwt.verify (Some token) (jwt.Secret secret) None (seconds (clock w2)) = inr decoded →
         ∃ user,
           db.user.select [where_id (jwt.id decoded); where_email (jwt.email decoded)] w2
           = Some user
           ∧ User.emailVerified user = true
           ∧ verification req w2
             = (inr (answer 200 "User verified successfully"),
                log (Q_user_findOne [where_id (jwt.id decoded);
                                     where_email (jwt.email decoded)]) w2)
           ∧ users (verification req w2).2 = users w2).
Proof.
  intros Hp.
  assert (∀ w decoded user,
            jwt.verify (Some token) (jwt.Secret secret) None (seconds (clock w)) = inr decoded →
            db.user.select [where_id (jwt.id decoded); where_email (jwt.email decoded)] w
            = Some user →
            User.emailVerified user = true →
            verification req w
            = (inr (answer 200 "User verified successfully"),
               log (Q_user_findOne [where_id (jwt.id decoded);
                                    where_email (jwt.email decoded)]) w)) as Hagain.
  { intros w0 decoded user Hv Hs Hflag.
    rewrite verification_run, Hp, Hv. cbv zeta.
    rewrite (select_defined _ _ _ Hs), Hs.
    rewrite (set_emailVerified_id _ Hflag).
    rewrite bool_decide_eq_true_2 by reflexivity. reflexivity. }
  split.
  - intros decoded user Hv Hs Hflag.
    rewrite (Hagain w decoded user Hv Hs Hflag). split; reflexivity.
  - intros w1 Hfirst w2 decoded Hus Hv2.
    rewrite verification_run, Hp in Hfirst.
    destruct (jwt.verify (Some token) _ _ (seconds (clock w))) as [e|decoded0] eqn:Hv;
      [discriminate|].
    pose proof (verify_same_payload _ _ _ _ _ _ _ Hv Hv2) as ->.
    cbv zeta in Hfirst.
    destruct (List.find cond_undefined _) as [c|] eqn:Hdef; [discriminate|].
    destruct (db.user.select _ w) as [user0|] eqn:Hs; [|discriminate].
    assert (∃ user, db.user.select [where_id (jwt.id decoded0);
                                    where_email (jwt.email decoded0)] w2 = Some user
                    ∧ User.emailVerified user = true) as (user & Hs2 & Hflag).
    { destruct (bool_decide (User.set_emailVerified true user0 = user0)) eqn:Hsame.
      - apply bool_decide_eq_true in Hsame. injection Hfirst as <-.
        exists user0. split; [|apply set_emailVerified_fixed, Hsame].
        rewrite (select_users _ w); [exact Hs|]. rewrite Hus. reflexivity.
      - destruct (db.user.unique_violation _ w); [discriminate|].
        injection Hfirst as <-.
        exists (User.set_updatedAt (clock w) (User.set_emailVerified true user0)).
        split; [|reflexivity].
        unfold db.user.select. rewrite Hus. simpl users.
        pose proof (select_Some _ _ _ Hs) as [_ Hall].
        assert (jwt.id decoded0 = Some (User.id user0)) as Hid.
        { specialize (Hall (where_id (jwt.id decoded0))). simpl in Hall.
          rewrite bool_decide_eq_true in Hall. apply Hall. left. }
        assert (jwt.email decoded0 = Some (User.email user0)) as Hem.
        { specialize (Hall (where_email (jwt.email decoded0))). simpl in Hall.
          rewrite bool_decide_eq_true in Hall. apply Hall. right. left. }
        apply (find_replace _ _ _ user0).
        + rewrite Hid. left.
        + intros c Hc. rewrite Hid, Hem in Hc.
          apply elem_of_cons in Hc as [->|Hc]; [apply bool_decide_eq_true; reflexivity|].
          apply list_elem_of_singleton in Hc as ->. apply bool_decide_eq_true. reflexivity.
        + exact Hs. }
    exists user. rewrite (Hagain w2 decoded0 user Hv2 Hs2 Hflag).
    repeat split; assumption.
Qed.

End verification_properties.

(** ** controllers/user.controller.js: what a profile answer shows *)

Section profile.
Context `{!jwt.Wire, !bcrypt.Impl, !Env, !validator.Impl}.

Lemma omit_has_no_key k o : ¬ has_key k (omit k o).
Proof.
  unfold has_key, omit. intros Hin.
  apply list_elem_of_fmap in Hin as ([k' v] & -> & Hin).
  apply list_elem_of_filter in Hin as [Hne _]. apply Hne. reflexivity.
Qed.

Lemma omit_password_erase u :
  omit "password" (User.toJSON (erase_password u)) = omit "password" (User.toJSON u).
Proof. destruct u. reflexivity. Qed.

Lemma omit_password_related u1 u2 :
  erase_password u1 = erase_password u2 →
  omit "password" (User.toJSON u1) = omit "password" (User.toJSON u2).
Proof. intros He. rewrite <- (omit_password_erase u1), He. apply omit_password_erase. Qed.

Lemma cond_holds_erase u c : cond_holds (erase_password u) c = cond_holds u c.
Proof. destruct c; reflexivity. Qed.

Lemma cons_eq_inv {A} (x y : A) (l l' : list A) : x :: l = y :: l' → x = y ∧ l = l'.
Proof. intros [= -> ->]. split; reflexivity. Qed.

(** A lookup does not read the password column. *)
Lemma find_related wh (us1 us2 : list User.t) :
  erase_password <$> us1 = erase_password <$> us2 →
  match List.find (λ u, forallb (cond_holds u) wh) us1,
        List.find (λ u, forallb (cond_holds u) wh) us2 with
  | Some u1, Some u2 => erase_password u1 = erase_password u2
  | None, None => True
  | _, _ => False
  end.
Proof.
  revert us2. induction us1 as [|u1 us1 IH]; intros [|u2 us2] Heq; try discriminate.
  - exact I.
  - apply (cons_eq_inv (erase_password u1) (erase_password u2)) in Heq as [Hu Hus]. simpl.
    assert (forallb (cond_holds u1) wh = forallb (cond_holds u2) wh) as Hsame.
    { clear -Hu. induction wh as [|c wh IHwh]; [reflexivity|]. cbn [forallb].
      rewrite <- (cond_holds_erase u1 c), <- (cond_holds_erase u2 c), Hu, IHwh.
      reflexivity. }
    rewrite Hsame. destruct (forallb (cond_holds u2) wh); [exact Hu|apply IH, Hus].
Qed.

Lemma select_related wh w1 w2 :
  same_but_passwords w1 w2 →
  match db.user.select wh w1, db.user.select wh w2 with
  | Some u1, Some u2 => erase_password u1 = erase_password u2
  | None, None => True
  | _, _ => False
  end.
Proof. intros [Hus _]. apply find_related, Hus. Qed.

Lemma erase_id u1 u2 : erase_password u1 = erase_password u2 → User.id u1 = User.id u2.
Proof. intros He. apply (f_equal User.id) in He. exact He. Qed.

Lemma Roles_of_related w1 w2 u1 u2 :
  same_but_passwords w1 w2 → erase_password u1 = erase_password u2 →
  Roles_of w1 u1 = Roles_of w2 u2.
Proof.
  intros (_ & _ & Hr & Hur & _) He. unfold Roles_of.
  rewrite Hr, Hur, (erase_id _ _ He). reflexivity.
Qed.

Lemma same_but_passwords_log q1 q2 w1 w2 :
  same_but_passwords w1 w2 → same_but_passwords (log q1 w1) (log q2 w2).
Proof. intros H'. exact H'. Qed.

(** Every path through [getUser]. *)
Lemma getUser_run (req : Request.t) (w : World) :
  getUser req w =
  match Request.user req with
  | None =>
      (inr (refuse 500 "Internal server error"
                   "Cannot read properties of undefined (reading 'id')"), w)
  | Some u =>
      match db.user.select [where_id (Some (ReqUser.id u))] w with
      | None => (inr (answer 404 "User not found"), log (Q_user_findByPk (Key.number (ReqUser.id u))) w)
      | Some user =>
          (inr (Respond {| Response.status := 200;
                           Response.body := JObj (omit "password" (User.toJSON user)) |}),
           log (Q_user_findByPk (Key.number (ReqUser.id u))) w)
      end
  end.
Proof.
  unfold getUser, req_user_id. destruct (Request.user req) as [u|]; [|reflexivity].
  mrun. change (db.user.select ?wh (log ?q w)) with (db.user.select wh w).
  destruct (db.user.select _ w); reflexivity.
Qed.

Lemma getUser_hides (req : Request.t) (w : World) r w' :
  getUser req w = (inr (Respond r), w') → hides_password r.
Proof.
  rewrite getUser_run. destruct (Request.user req) as [u|].
  - destruct (db.user.select _ w) as [user|]; intros [= <- <-].
    + intros _. eexists. split; [reflexivity|apply omit_has_no_key].
    + discriminate.
  - intros [= <- <-]. discriminate.
Qed.

Lemma updateUser_hides (req : Request.t) (w : World) r w' :
  updateUser req w = (inr (Respond r), w') → hides_password r.
Proof.
  unfold updateUser, req_user_id. destruct (Request.user req) as [u|]; mrun.
  - destruct (db.user.select _ _) as [user|]; mrun.
    + destruct (bool_decide _); mrun.
      * intros [= <- <-] _. eexists. split; [reflexivity|apply omit_has_no_key].
      * destruct (db.user.unique_violation _ _); mrun; intros [= <- <-].
        -- discriminate.
        -- intros _. eexists. split; [reflexivity|apply omit_has_no_key].
    + intros [= <- <-]. discriminate.
  - intros [= <- <-]. discriminate.
Qed.

Lemma verifyToken_401 (req : Request.t) (w : World) r w' :
  verifyToken req w = (inr (Respond r), w') → Response.status r = 401.
Proof.
  rewrite verifyToken_run. cbv zeta.
  repeat (match goal with
          | |- context [match ?x with _ => _ end] => destruct x
          end; try (intros [= <- <-]; reflexivity); try discriminate).
Qed.

Lemma validationErrorHandler_400 (req : Request.t) (w : World) r w' :
  validationErrorHandler req w = (inr (Respond r), w') → Response.status r = 400.
Proof.
  unfold validationErrorHandler. destruct (Request.validationErrors req); [discriminate|].
  intros [= <- <-]. reflexivity.
Qed.

(** What a chain answers, one of its middlewares answered. *)
Lemma chain_answer (P : Response.t → Prop) hs :
  Forall (λ h : Handler, ∀ req w r w', h req w = (inr (Respond r), w') → P r) hs →
  ∀ req w r w', chain hs req w = (inr (Respond r), w') → P r.
Proof.
  induction 1 as [|h hs Hh _ IH]; intros req w r w'; simpl.
  - discriminate.
  - rewrite run_bind. destruct (h req w) as [[e|[r0|req0]] w0] eqn:Hrun.
    + discriminate.
    + intros [= <- <-]. eapply Hh, Hrun.
    + apply IH.
Qed.

Lemma status_hides r code : Response.status r = code → code ≠ 200 → hides_password r.
Proof. intros Hs Hne H200. congruence. Qed.

Lemma getUser_related (req : Request.t) (w1 w2 : World) :
  same_but_passwords w1 w2 → (getUser req w1).1 = (getUser req w2).1.
Proof.
  intros Hw. rewrite !getUser_run. destruct (Request.user req) as [u|]; [|reflexivity].
  pose proof (select_related [where_id (Some (ReqUser.id u))] w1 w2 Hw) as Hsel.
  destruct (db.user.select _ w1) as [u1|], (db.user.select _ w2) as [u2|];
    try contradiction; [|reflexivity].
  simpl. rewrite (omit_password_related _ _ Hsel). reflexivity.
Qed.

Lemma serve_GET_user_related (req : Request.t) (w1 w2 : World) :
  same_but_passwords w1 w2 → (serve GET_user req w1).1 = (serve GET_user req w2).1.
Proof.
  intros Hw. unfold serve. simpl middlewares. simpl chain. rewrite !run_bind.
  rewrite !verifyToken_run. cbv zeta.
  destruct Hw as (Hus & Hss & Hrs & Hurs & Hclock).
  assert (same_but_passwords w1 w2) as Hw by (repeat split; assumption).
  rewrite Hclock, Hss.
  destruct (bearer req) as [tok|]; [|reflexivity].
  destruct (bool_decide (tok = "")); [reflexivity|].
  destruct (jwt.verify _ _ _ _) as [e|decoded]; [reflexivity|].
  destruct (negb (complete decoded)); [reflexivity|].
  destruct (sessions w2 !! tok) as [s|]; [|reflexivity].
  destruct (Session.flag s); [reflexivity|].
  pose proof (select_related [where_id (jwt.id decoded); where_username (jwt.username decoded)]
                             w1 w2 Hw) as Hsel.
  destruct (db.user.select _ w1) as [u1|], (db.user.select _ w2) as [u2|];
    try contradiction; [|reflexivity].
  assert (authenticated req w1 u1 = authenticated req w2 u2) as ->.
  { unfold authenticated. rewrite (Roles_of_related _ _ _ _ Hw Hsel).
    apply (f_equal User.id) in Hsel as Hid. apply (f_equal User.username) in Hsel as Hun.
    apply (f_equal User.emailVerified) in Hsel as Hev. simpl in Hid, Hun, Hev.
    rewrite Hid, Hun, Hev. reflexivity. }
  rewrite !run_bind.
  match goal with
  | |- context [getUser ?r ?wa] =>
      match goal with
      | |- context [getUser r ?wb] =>
          lazymatch wa with
          | wb => fail
          | _ => pose proof (getUser_related r wa wb) as Hget
          end
      end
  end.
  specialize (Hget Hw).
  repeat match goal with
         | |- context [getUser ?r ?wa] => destruct (getUser r wa) as [[?|[?|?]] ?]
         end; simpl in *; congruence.
Qed.

(** C10.  The stored password hash never shows in a profile answer.
    Whatever GET /user or PUT /user answers with status 200 is an
    object without a [password] property; and two states that differ
    only in the password hashes they store get the same answer to the
    same GET /user request. *)
Theorem profile_answers_hide_password :
  (∀ req w r w', serve GET_user req w = (inr (Respond r), w') → hides_password r)
  ∧ (∀ req w r w', serve PUT_user req w = (inr (Respond r), w') → hides_password r)
  ∧ (∀ req w r w', getUser req w = (inr (Respond r), w') → hides_password r)
  ∧ (∀ req w r w', updateUser req w = (inr (Respond r), w') → hides_password r)
  ∧ (∀ req w1 w2, same_but_passwords w1 w2 →
                  (serve GET_user req w1).1 = (serve GET_user req w2).1)
  ∧ (∀ req w1 w2, same_but_passwords w1 w2 → (getUser req w1).1 = (getUser req w2).1).
Proof.
  split; [|split; [|split; [|split; [|split]]]].
  - unfold serve. apply chain_answer. simpl. repeat constructor.
    + intros req w r w' Hrun. eapply status_hides; [eapply verifyToken_401, Hrun|lia].
    + apply getUser_hides.
  - unfold serve. apply chain_answer. simpl. repeat constructor.
    + intros req w r w' Hrun. eapply status_hides; [eapply verifyToken_401, Hrun|lia].
    + intros req w r w' Hrun. discriminate.
    + intros req w r w' Hrun. eapply status_hides; [eapply validationErrorHandler_400, Hrun|lia].
    + apply updateUser_hides.
  - apply getUser_hides.
  - apply updateUser_hides.
  - apply serve_GET_user_related.
  - apply getUser_related.
Qed.

End profile.

(** * The properties on the scenario *)

Import reference.

Section on_the_scenario.
Import scenario.

Lemma registered_users : users registered = [alice].
Proof. vm_compute. reflexivity. Qed.

Lemma logged_in_sessions :
  sessions logged_in !! alice_token = Some (session_row alice).
Proof. vm_compute. reflexivity. Qed.

Lemma logged_out_sessions :
  sessions logged_out !! alice_token = Some (Session.set_flag true (session_row alice)).
Proof. vm_compute. reflexivity. Qed.

Lemma bearing_alice_token : bearer (bearing alice_token) = Some alice_token.
Proof. vm_compute. reflexivity. Qed.

Lemma outcome_of {A} (m : M A) (w : World) (r : string + A) :
  (m w).1 = r → m w = (r, (m w).2).
Proof. intros <-. apply surjective_pairing. Qed.

(** C1 on the scenario: the token Alice logged out with is revoked, and
    it is turned away after a further login and an hour on the clock;
    her GET /logout, served in a state reached from the start, is what
    revoked it. *)
Lemma revoked_token_never_authenticates_witness :
  revoked logged_out alice_token
  ∧ bearer (bearing alice_token) = Some alice_token
  ∧ turned_away alice_token (bearing alice_token)
      (run [Served POST_login alice_login; Environment 3605000 1 true] logged_out)
  ∧ serve GET_logout (bearing alice_token)
          (run [Served POST_signup alice_signup; Served POST_login alice_login] (initial 5000))
    = (inr (answer 200 "Logged out successfully"),
       (serve GET_logout (bearing alice_token)
              (run [Served POST_signup alice_signup; Served POST_login alice_login]
                   (initial 5000))).2)
  ∧ revoked (serve GET_logout (bearing alice_token)
                   (run [Served POST_signup alice_signup; Served POST_login alice_login]
                        (initial 5000))).2 alice_token.
Proof.
  assert (revoked logged_out alice_token) as Hr.
  { eexists. split; [apply logged_out_sessions|reflexivity]. }
  assert (serve GET_logout (bearing alice_token)
                (run [Served POST_signup alice_signup; Served POST_login alice_login]
                     (initial 5000))
          = (inr (answer 200 "Logged out successfully"),
             (serve GET_logout (bearing alice_token)
                    (run [Served POST_signup alice_signup; Served POST_login alice_login]
                         (initial 5000))).2)) as Hout.
  { apply outcome_of. vm_compute. reflexivity. }
  split; [exact Hr|]. split; [exact bearing_alice_token|].
  split; [|split; [exact Hout|]].
  - exact (proj1 (proj2 (proj2 (revoked_token_never_authenticates alice_token)))
             logged_out _ _ Hr bearing_alice_token).
  - exact (proj1 (proj2 (proj2 (proj2 (proj2 (revoked_token_never_authenticates alice_token))))
                    5000 _ _ _ _ bearing_alice_token Hout eq_refl)).
Defined.

(** C5 on the scenario: a token signed with the private key that
    carries no identity id. *)
Lemma incomplete_claims_rejected_witness :
  bearer (bearing anonymous_token) = Some anonymous_token
  ∧ jwt.verify (Some anonymous_token) publicKey (Some [jwt.RS256]) (seconds (clock logged_in))
    = inr (stamped anonymous_claims 5 one_hour)
  ∧ jwt.id (stamped anonymous_claims 5 one_hour) = None
  ∧ verifyToken (bearing anonymous_token) logged_in
    = (inr (answer 401 "Token is missing required user information"), logged_in).
Proof.
  assert (bearer (bearing anonymous_token) = Some anonymous_token) as Hb
      by (vm_compute; reflexivity).
  assert (jwt.verify (Some anonymous_token) publicKey (Some [jwt.RS256])
                     (seconds (clock logged_in))
          = inr (stamped anonymous_claims 5 one_hour)) as Hv
      by (vm_compute; reflexivity).
  split; [exact Hb|]. split; [exact Hv|]. split; [reflexivity|].
  exact (proj1 (incomplete_claims_rejected (bearing anonymous_token) logged_in
                  anonymous_token _ Hb Hv (or_introl eq_refl))).
Defined.

(** C6 on the scenario: no context, no roles, the wrong role, the
    right role. *)
Lemma roleAuthorization_decides_witness :
  roleAuthorization ["admin"] (request None Body.empty Params.empty) registered
  = (inr (answer 403 "Access denied"), registered)
  ∧ roleAuthorization ["admin"] (as_role None) registered
    = (inr (answer 403 "Access denied"), registered)
  ∧ roleAuthorization ["admin"] (as_role (Some ["user"])) registered
    = (inr (answer 403 "Forbidden: Insufficient permissions"), registered)
  ∧ roleAuthorization ["admin"] (as_role (Some ["user"; "admin"])) registered
    = (inr (Next (as_role (Some ["user"; "admin"]))), registered).
Proof.
  split; [|split; [|split]].
  - apply (proj1 (roleAuthorization_decides ["admin"] _ registered)).
    left. reflexivity.
  - apply (proj1 (roleAuthorization_decides ["admin"] (as_role None) registered)).
    right. eexists. split; reflexivity.
  - apply (proj1 (proj2 (roleAuthorization_decides ["admin"] (as_role (Some ["user"]))
                           registered)) _ ["user"] eq_refl eq_refl).
    intros r Hr Hin. apply list_elem_of_singleton in Hr, Hin. congruence.
  - apply (proj1 (proj2 (proj2 (roleAuthorization_decides ["admin"]
                                  (as_role (Some ["user"; "admin"])) registered)))
             _ ["user"; "admin"] eq_refl eq_refl).
    exists "admin". split; [left|right; left].
Defined.

(** C3 on the scenario: an unknown username, then a wrong password. *)
Lemma failed_login_creates_no_session_witness :
  ((login bob_login registered).1 = inr (answer 401 "Invalid username or password")
   ∧ sessions (login bob_login registered).2 = sessions registered
   ∧ same_tables registered (login bob_login registered).2)
  ∧ ((login alice_wrong_password registered).1
     = inr (answer 401 "Invalid username or password")
     ∧ sessions (login alice_wrong_password registered).2 = sessions registered
     ∧ same_tables registered (login alice_wrong_password registered).2).
Proof.
  split.
  - apply (proj1 (failed_login_creates_no_session bob_login registered));
      [reflexivity|reflexivity|].
    left. rewrite registered_users. intros u ->%list_elem_of_singleton. discriminate.
  - apply (proj1 (failed_login_creates_no_session alice_wrong_password registered));
      [reflexivity|reflexivity|].
    right. exists alice. split; vm_compute; reflexivity.
Defined.

Lemma alice_is_found :
  db.user.select [where_username (Some (User.username alice))] registered = Some alice.
Proof. vm_compute. reflexivity. Qed.

Lemma alice_token_is_fresh :
  sessions registered !! jwt.serialize (session_token alice (seconds (clock registered))) = None.
Proof. vm_compute. reflexivity. Qed.

(** X3 on the scenario: Alice's first login. *)
Lemma login_issues_session_token_witness :
  ∃ token w',
    login alice_login registered
    = (inr (Respond {| Response.status := 200;
                       Response.body := JObj [("token", JStr token)] |}), w')
    ∧ sessions w' = <[token := session_row alice]> (sessions registered)
    ∧ users w' = users registered
    ∧ (∃ t, jwt.parse token = Some t ∧ jwt.alg t = jwt.RS256
            ∧ jwt.signed_by t = Some privateKey)
    ∧ ∀ t,
        jwt.verify (Some token) publicKey (Some [jwt.RS256]) t
        = if bool_decide (seconds (clock registered) + 3600 ≤ t) then inl "jwt expired"
          else inr {| jwt.id := Some (User.id alice);
                      jwt.username := Some (User.username alice);
                      jwt.email := None;
                      jwt.verified := Some (User.emailVerified alice);
                      jwt.iat := Some (seconds (clock registered));
                      jwt.exp := Some (seconds (clock registered) + 3600) |}.
Proof.
  apply (login_issues_session_token alice_login registered alice "key-1" "secret1").
  - reflexivity.
  - reflexivity.
  - rewrite registered_users. left.
  - exact alice_is_found.
  - reflexivity.
  - discriminate.
  - reflexivity.
  - discriminate.
  - reflexivity.
  - exact alice_token_is_fresh.
Defined.

(** C4.  Login does not return a token for every stored identity that
    presents its username and password.  Alice, stored and presenting
    her username and her password, logs in a second time 400 ms after
    the first, in a state the application reaches from its start.
    The token has no part drawn at random and its issue time is
    counted in seconds, so the token signed is the one of the first
    login; the Sessions table holds it, the unique index on the token
    column rejects the insert, and the answer is 500 'Server error'
    with no token. *)
Lemma second_login_in_the_same_second :
  alice ∈ users (set_environment 5400 0 true logged_in)
  ∧ Body.username (Request.body alice_login) = Some (User.username alice)
  ∧ (∃ password, Body.password (Request.body alice_login) = Some password
                 ∧ bcrypt.compare password (User.password alice) = true)
  ∧ set_environment 5400 0 true logged_in
    = run [Served POST_signup alice_signup; Served POST_login alice_login;
           Environment 5400 0 true] (initial 5000)
  ∧ (serve POST_login alice_login registered).1
    = inr (Respond {| Response.status := 200;
                      Response.body := JObj [("token", JStr alice_token)] |})
  ∧ (login alice_login (set_environment 5400 0 true logged_in)).1
    = inr (refuse 500 "Server error" "Validation error")
  ∧ (serve POST_login alice_login (set_environment 5400 0 true logged_in)).1
    = inr (refuse 500 "Server error" "Validation error")
  ∧ ¬ ∃ token, (login alice_login (set_environment 5400 0 true logged_in)).1
               = inr (Respond {| Response.status := 200;
                                 Response.body := JObj [("token", JStr token)] |}).
Proof.
  assert ((login alice_login (set_environment 5400 0 true logged_in)).1
          = inr (refuse 500 "Server error" "Validation error")) as Hrun
      by (vm_compute; reflexivity).
  split; [|split; [|split; [|split; [|split; [|split; [|split]]]]]].
  - replace (users (set_environment 5400 0 true logged_in)) with [alice]
      by (vm_compute; reflexivity).
    left.
  - reflexivity.
  - exists "secret1". split; reflexivity.
  - reflexivity.
  - vm_compute. reflexivity.
  - exact Hrun.
  - vm_compute. reflexivity.
  - intros (token & Hok). rewrite Hrun in Hok. discriminate.
Qed.

(** C7 on the scenario: Alice's email in place of her username. *)
Lemma login_requires_username_witness :
  Request.validationErrors alice_login_by_email = []
  ∧ truthy_string (Body.username (Request.body alice_login_by_email)) = false
  ∧ validator.isEmail (default "" (Body.email (Request.body alice_login_by_email))) = true
  ∧ serve POST_login alice_login_by_email registered
    = (inr (answer 400 "Username and password are required"), registered).
Proof.
  split; [reflexivity|]. split; [reflexivity|]. split; [reflexivity|].
  apply (proj1 (proj2 (proj2 (login_requires_username alice_login_by_email registered)))).
  - reflexivity.
  - reflexivity.
  - reflexivity.
  - simpl. lia.
Defined.

(** C7 as stated fails: Alice is stored, the request carries her email
    and her password and no username, and POST /login answers 400. *)
Lemma login_by_email_is_refused :
  alice ∈ users registered
  ∧ Body.username (Request.body alice_login_by_email) = None
  ∧ Body.email (Request.body alice_login_by_email) = Some (User.email alice)
  ∧ (∃ password, Body.password (Request.body alice_login_by_email) = Some password
                 ∧ bcrypt.compare password (User.password alice) = true)
  ∧ serve POST_login alice_login_by_email registered
    = (inr (answer 400 "Username and password are required"), registered)
  ∧ (serve POST_login alice_login registered).1
    = inr (Respond {| Response.status := 200;
                      Response.body := JObj [("token", JStr alice_token)] |}).
Proof.
  split; [|split; [|split; [|split; [|split]]]].
  - rewrite registered_users. left.
  - reflexivity.
  - reflexivity.
  - exists "secret1". split; reflexivity.
  - vm_compute. reflexivity.
  - vm_compute. reflexivity.
Qed.

Lemma alice_is_stored : stored unassigned 1.
Proof. exists alice. split; [left|reflexivity]. Qed.

Lemma nobody_is_stored_under_7 : ¬ stored registered 7.
Proof.
  intros (u & Hin & Hid). rewrite registered_users in Hin.
  apply list_elem_of_singleton in Hin as ->. discriminate.
Qed.

(** C8 on the scenario: Alice without a role, and an id nobody has. *)
Lemma getUserRoles_outcomes_witness :
  Params.userId (Request.params (roles_of 7)) = Some (Segment.numeral 7)
  ∧ 7 ≤ 2147483647
  ∧ getUserRoles (roles_of 1) unassigned
    = (inr (Respond {| Response.status := 200; Response.body := JArr [] |}),
       log (Q_user_findByPk (Key.segment (Segment.numeral 1))) unassigned)
  ∧ getUserRoles (roles_of 7) registered
    = (inr (Respond {| Response.status := 401; Response.body := message "User not found" |}),
       log (Q_user_findByPk (Key.segment (Segment.numeral 7))) registered).
Proof.
  assert (1 ≤ 2147483647) as Hrange1 by lia.
  assert (7 ≤ 2147483647) as Hrange7 by lia.
  split; [reflexivity|]. split; [exact Hrange7|]. split.
  - apply (proj1 (proj2 (getUserRoles_outcomes (roles_of 1) unassigned 1 eq_refl Hrange1))).
    + exact alice_is_stored.
    + intros ur Hin. apply elem_of_nil in Hin. destruct Hin.
  - apply (proj2 (proj2 (getUserRoles_outcomes (roles_of 7) registered 7 eq_refl Hrange7))).
    exact nobody_is_stored_under_7.
Defined.


(** C8 as stated fails: for an id under which no identity is stored,
    get-user-roles answers with the authentication status 401, not
    with the not-found status 404. *)
Lemma absent_identity_is_answered_401 :
  ¬ stored registered 7
  ∧ (getUserRoles (roles_of 7) registered).1 = inr (answer 401 "User not found")
  ∧ ¬ ∃ r, (getUserRoles (roles_of 7) registered).1 = inr (Respond r)
           ∧ Response.status r = 404.
Proof.
  assert ((getUserRoles (roles_of 7) registered).1 = inr (answer 401 "User not found"))
    as Hrun by (vm_compute; reflexivity).
  split; [exact nobody_is_stored_under_7|]. split; [exact Hrun|].
  intros (r & Hr & Hstatus). rewrite Hrun in Hr. injection Hr as <-. discriminate.
Qed.

(** C9 on the scenario: Alice consumes her verification token, and
    consumes it again a minute later. *)
Lemma verification_can_be_repeated_witness :
  verification (consuming alice_verification_token) registered
  = (inr (answer 200 "User verified successfully"),
     (verification (consuming alice_verification_token) registered).2)
  ∧ ∃ user,
      db.user.select [where_id (Some 1); where_email (Some "alice@x.com")] verified = Some user
      ∧ User.emailVerified user = true
      ∧ verification (consuming alice_verification_token) verified
        = (inr (answer 200 "User verified successfully"),
           log (Q_user_findOne [where_id (Some 1); where_email (Some "alice@x.com")]) verified)
      ∧ users (verification (consuming alice_verification_token) verified).2 = users verified.
Proof.
  assert (verification (consuming alice_verification_token) registered
          = (inr (answer 200 "User verified successfully"),
             (verification (consuming alice_verification_token) registered).2)) as Hfirst.
  { apply outcome_of. vm_compute. reflexivity. }
  split; [exact Hfirst|].
  apply (proj2 (verification_can_be_repeated (consuming alice_verification_token) registered
                  alice_verification_token eq_refl)
           _ Hfirst verified (stamped (verification_claims alice) 5 one_hour)).
  - reflexivity.
  - vm_compute. reflexivity.
Defined.

Lemma other_hash_differs : users other_hash ≠ users logged_in.
Proof. vm_compute. discriminate. Qed.

Lemma other_hash_same : same_but_passwords logged_in other_hash.
Proof.
  unfold same_but_passwords, other_hash.
  split; [vm_compute; reflexivity|]. repeat split.
Qed.

(** C10 on the scenario: Alice reads her profile. *)
Lemma profile_answers_hide_password_witness :
  (∃ r, serve GET_user (bearing alice_token) logged_in
        = (inr (Respond r), (serve GET_user (bearing alice_token) logged_in).2)
        ∧ Response.status r = 200
        ∧ hides_password r)
  ∧ same_but_passwords logged_in other_hash
  ∧ (serve GET_user (bearing alice_token) logged_in).1
    = (serve GET_user (bearing alice_token) other_hash).1.
Proof.
  split; [|split].
  - exists {| Response.status := 200;
              Response.body := JObj (omit "password" (User.toJSON alice)) |}.
    assert (serve GET_user (bearing alice_token) logged_in
            = (inr (Respond {| Response.status := 200;
                               Response.body := JObj (omit "password" (User.toJSON alice)) |}),
               (serve GET_user (bearing alice_token) logged_in).2)) as Hrun.
    { apply outcome_of. vm_compute. reflexivity. }
    split; [exact Hrun|]. split; [reflexivity|].
    exact (proj1 profile_answers_hide_password _ _ _ _ Hrun).
  - exact other_hash_same.
  - apply (proj1 (proj2 (proj2 (proj2 (proj2 profile_answers_hide_password))))).
    exact other_hash_same.
Defined.

(** C2 on the scenario: Alice's verification token as a bearer token,
    her session token at the two consume endpoints, and her
    verification token at reset-password. *)
Lemma token_families_not_interchangeable_witness :
  verifyToken (bearing alice_verification_token) logged_in
  = (inr (answer 401 "Invalid token"), logged_in)
  ∧ (∃ e, verification (consuming alice_token) logged_in
          = (inr (refuse 400 "Invalid or expired verification link" e), logged_in))
  ∧ (∃ e, resetPassword (request None (with_token alice_token (Some "hunter2")) Params.empty)
                        logged_in
          = (inr (refuse 400 "Invalid or expired token" e), logged_in))
  ∧ (∃ e w', resetPassword (request None (with_token alice_verification_token (Some "hunter2"))
                                    Params.empty) logged_in
             = (inr (refuse 400 "Invalid or expired token" e), w')
             ∧ same_tables logged_in w').
Proof.
  pose proof (token_families_not_interchangeable
                (bearing alice_verification_token) logged_in alice 5) as (Ha & _).
  pose proof (token_families_not_interchangeable
                (consuming alice_token) logged_in alice 5) as (_ & Hb & _).
  pose proof (token_families_not_interchangeable
                (request None (with_token alice_token (Some "hunter2")) Params.empty)
                logged_in alice 5) as (_ & Hb' & _).
  pose proof (token_families_not_interchangeable
                (request None (with_token alice_verification_token (Some "hunter2"))
                         Params.empty)
                logged_in alice 5) as (_ & _ & Hc & _).
  split; [|split; [|split]].
  - apply (Ha (verification_claims alice) alice_verification_token).
    + left. reflexivity.
    + reflexivity.
    + vm_compute. reflexivity.
  - apply (proj1 (Hb (session_claims alice) alice_token eq_refl)). reflexivity.
  - apply (proj1 (proj2 (Hb' (session_claims alice) alice_token eq_refl))). reflexivity.
  - apply (Hc alice_verification_token); reflexivity.
Defined.

(** X1 on the scenario: the row of Alice's token, before and after her
    logout. *)
Lemma session_row_bound_to_one_identity_witness :
  sessions (run [Served POST_signup alice_signup; Served POST_login alice_login] (initial 5000))
    !! alice_token = Some (session_row alice)
  ∧ bound_row alice_token (session_row alice)
  ∧ ∃ s', sessions (run [Served GET_logout (bearing alice_token)]
                        (run [Served POST_signup alice_signup; Served POST_login alice_login]
                             (initial 5000)))
            !! alice_token = Some s'
          ∧ Session.userId s' = Session.userId (session_row alice).
Proof.
  assert (sessions (run [Served POST_signup alice_signup; Served POST_login alice_login]
                        (initial 5000))
            !! alice_token = Some (session_row alice)) as Hs
      by (vm_compute; reflexivity).
  split; [exact Hs|].
  exact (session_row_bound_to_one_identity 5000 _ [Served GET_logout (bearing alice_token)]
           alice_token (session_row alice) Hs).
Defined.

(** X2 on the scenario: Alice's verification token a second before the
    hour, and on the hour. *)
Lemma action_token_expires_witness :
  jwt.sign (verification_claims alice) (jwt.Secret secret) None one_hour 5
  = inr alice_verification_token
  ∧ jwt.verify (Some alice_verification_token) (jwt.Secret secret) None 3604
    = inr (stamped (verification_claims alice) 5 3600)
  ∧ jwt.verify (Some alice_verification_token) (jwt.Secret secret) None 3605
    = inl "jwt expired".
Proof.
  pose proof (action_token_expires (verification_claims alice) 5 alice_verification_token
                eq_refl) as (Hbefore & Hafter & _).
  split; [reflexivity|]. split.
  - apply Hbefore. reflexivity.
  - apply Hafter. discriminate.
Defined.

End on_the_scenario.
